(** * POLYNOCTON SDK: a shallow embedding of the facade and its error classes

    Sources embedded here:
    - [src/errors.ts]            the two error classes ([Module Errors]);
    - [client.ts]                the facade class [POLYCAVORASDK]
                                 ([Module Client]).

    The facade imports [constants], [utils/logger], [utils/retry],
    [providers/polymarket], [streams/orderbook], [trading/index] and
    [relayer/index].  Where a definition below stands for one of those, its
    doc comment starts with "Modelled from the spec:". *)

From stdpp Require Import gmap strings list.
From Stdlib Require Import ZArith Lia.

#[local] Set Warnings "-register-all".
#[local] Open Scope Z_scope.

(** ** JavaScript values *)

Module Js.

(** The classes an object of this program can belong to.  [Object] is the
    class of decoded JSON objects, [TypeError] the class of the error the
    platform's [fetch] raises when no response arrives. *)
Inductive Class := Object | Error | TypeError | POLYNOCTONError | HttpError.

#[global] Instance Class_eq_dec : EqDecision Class.
Proof. solve_decision. Defined.

(** A TypeScript [number] that holds an HTTP status or a delay is an integer
    well inside the exactly representable range, so it is a [Z] here.  An
    object is its class and its own properties. *)
Inductive value :=
| VUndefined
| VNull
| VBoolean (b : bool)
| VNumber (n : Z)
| VString (s : string)
| VArray (items : list value)
| VObject (c : Class) (props : gmap string value).

(** [class C extends D]: the declared parent of each class. *)
Definition extends (c : Class) : option Class :=
  match c with
  | Object => None
  | Error => Some Object
  | TypeError => Some Error
  | POLYNOCTONError => Some Error
  | HttpError => Some POLYNOCTONError
  end.

(** The prototype chain of a class, itself first.  No chain of this program
    is longer than [depth]. *)
Fixpoint chain (depth : nat) (c : Class) : list Class :=
  match depth with
  | O => []
  | S d => c :: match extends c with
                | Some p => chain d p
                | None => []
                end
  end.

Definition depth : nat := 5.

(** [v instanceof C] *)
Definition instanceof (v : value) (C : Class) : bool :=
  match v with
  | VObject c _ => bool_decide (C ∈ chain depth c)
  | _ => false
  end.

(** [o.k], [undefined] for a property the object does not have. *)
Definition get (v : value) (k : string) : value :=
  match v with
  | VObject _ props => default VUndefined (props !! k)
  | _ => VUndefined
  end.

(** An optional string argument: omitted means [undefined]. *)
Definition optional (s : option string) : value :=
  match s with
  | Some x => VString x
  | None => VUndefined
  end.

(** [!!v] on an optional field. *)
Definition truthy_bool (b : option bool) : bool := default false b.

Definition present {A} (o : option A) : bool :=
  match o with
  | Some _ => true
  | None => false
  end.

End Js.

(** ** src/errors.ts *)

Module Errors.
Import Js.

(** The body of a constructor is a sequence of assignments to [this]; the
    own properties of [this] are a finite map. *)
Definition this_t : Type := gmap string value.

(** [new Error(message)] gives the object its [message]. *)
Definition Error_constructor (message : string) (this : this_t) : this_t :=
  <["message" := VString message]> this.

(** [POLYNOCTONError]'s constructor:
    [super(message); this.name = "POLYNOCTONError"; this.code = code;
     this.cause = cause;] *)
Definition POLYNOCTONError_constructor
    (message : string) (code : option string) (cause : value)
    (this : this_t) : this_t :=
  let this := Error_constructor message this in
  let this := <["name" := VString "POLYNOCTONError"]> this in
  let this := <["code" := optional code]> this in
  let this := <["cause" := cause]> this in
  this.

(** [HttpError]'s constructor:
    [super(message, "HTTP_ERROR", cause); this.status = status;] *)
Definition HttpError_constructor
    (status : Z) (message : string) (cause : value)
    (this : this_t) : this_t :=
  let this := POLYNOCTONError_constructor message (Some "HTTP_ERROR") cause this in
  let this := <["status" := VNumber status]> this in
  this.

Definition new_Error (message : string) : value :=
  VObject Error (Error_constructor message ∅).

Definition new_TypeError (message : string) : value :=
  VObject TypeError (Error_constructor message ∅).

Definition new_POLYNOCTONError
    (message : string) (code : option string) (cause : value) : value :=
  VObject POLYNOCTONError (POLYNOCTONError_constructor message code cause ∅).

Definition new_HttpError (status : Z) (message : string) (cause : value) : value :=
  VObject HttpError (HttpError_constructor status message cause ∅).

End Errors.

(** ** streams/orderbook: one subscription as a state machine *)

Module Stream.
Import Js.

(** Modelled from the spec: [OrderbookUpdate] (types is not among the
    sources) is the tagged union
    [{type: "snapshot", data} | {type: "delta", data}]. *)
Inductive OrderbookUpdate :=
| Snapshot (data : value)
| Delta (data : value).

(** The decoded frame that carries an update. *)
Definition frame_of (u : OrderbookUpdate) : value :=
  match u with
  | Snapshot d => VObject Object (<["data" := d]> (<["type" := VString "snapshot"]> ∅))
  | Delta d => VObject Object (<["data" := d]> (<["type" := VString "delta"]> ∅))
  end.

(** Modelled from the spec: the classification of an inbound frame
    (streams/orderbook is not among the sources).  A frame is a decoded JSON
    object; its [type] tag says whether it is a snapshot or a delta.  A frame
    with any other tag is no [OrderbookUpdate]. *)
Definition classify (frame : value) : option OrderbookUpdate :=
  match get frame "type" with
  | VString t =>
      if String.eqb t "snapshot" then Some (Snapshot (get frame "data"))
      else if String.eqb t "delta" then Some (Delta (get frame "data"))
      else None
  | _ => None
  end.

(** Modelled from the spec: the states of a connection,
    Connecting -> Open -> Closing -> Closed. *)
Inductive ReadyState := Connecting | Open | Closing | Closed.

(** [opts?: { onError?, onOpen?, onClose? }]: which hooks the caller gave. *)
Record Hooks := {
  onError : bool;
  onOpen : bool;
  onClose : bool;
}.

(** [opts] itself is optional. *)
Definition hooks_of (opts : option Hooks) : Hooks :=
  default {| onError := false; onOpen := false; onClose := false |} opts.

(** What the subscription has called in the caller's code. *)
Inductive Invocation :=
| Cb (u : OrderbookUpdate)
| OnOpen
| OnClose
| OnError (e : value).

Record Subscription := {
  wsBaseUrl : string;
  marketId : string;
  hooks : Hooks;
  readyState : ReadyState;
  invoked : list Invocation;
}.

Definition with_state (st : ReadyState) (s : Subscription) : Subscription :=
  {| wsBaseUrl := wsBaseUrl s; marketId := marketId s; hooks := hooks s;
     readyState := st; invoked := invoked s |}.

Definition invoke (i : Invocation) (s : Subscription) : Subscription :=
  {| wsBaseUrl := wsBaseUrl s; marketId := marketId s; hooks := hooks s;
     readyState := readyState s; invoked := invoked s ++ [i] |}.

(** A hook is called only when the caller supplied it. *)
Definition invoke_hook (given : bool) (i : Invocation) (s : Subscription) : Subscription :=
  if given then invoke i s else s.

(** What the socket reports. *)
Inductive Event :=
| SocketOpen
| SocketMessage (frame : value)
| SocketError (e : value)
| SocketClose.

(** Modelled from the spec: a new subscription starts in [Connecting]. *)
Definition connect (base market : string) (opts : option Hooks) : Subscription :=
  {| wsBaseUrl := base; marketId := market; hooks := hooks_of opts;
     readyState := Connecting; invoked := [] |}.

(** Modelled from the spec: the handlers of the socket's events.
    On Open the [onOpen] hook fires; a frame received while Open is
    classified and handed to the callback; a socket error fires [onError] and
    moves the connection toward Closed; on Closed the [onClose] hook fires. *)
Definition on_event (ev : Event) (s : Subscription) : Subscription :=
  match ev, readyState s with
  | SocketOpen, Connecting => invoke_hook (onOpen (hooks s)) OnOpen (with_state Open s)
  | SocketOpen, _ => s
  | SocketMessage frame, Open =>
      match classify frame with
      | Some u => invoke (Cb u) s
      | None => s
      end
  | SocketMessage _, _ => s
  | SocketError _, Closed => s
  | SocketError e, _ => invoke_hook (onError (hooks s)) (OnError e) (with_state Closing s)
  | SocketClose, Closed => s
  | SocketClose, _ => invoke_hook (onClose (hooks s)) OnClose (with_state Closed s)
  end.

(** Modelled from the spec: the function the subscribe call returns closes
    the underlying connection. *)
Definition unsubscribe (s : Subscription) : Subscription :=
  match readyState s with
  | Connecting | Open => with_state Closing s
  | Closing | Closed => s
  end.

(** The updates the callback has received, oldest first. *)
Definition updates_of (calls : list Invocation) : list OrderbookUpdate :=
  omap (fun i => match i with Cb u => Some u | _ => None end) calls.

Definition delivered (s : Subscription) : list OrderbookUpdate :=
  updates_of (invoked s).

(** The connection is closing or closed. *)
Definition closing (s : Subscription) : bool :=
  match readyState s with
  | Closing | Closed => true
  | Connecting | Open => false
  end.

End Stream.

(** ** types: the configuration the constructor reads *)

Module Types.
Import Js.

(** Modelled from the spec: the credentials of a trading or relayer
    configuration (types is not among the sources): a private key in backend
    mode, a wallet signer supplied by the caller in frontend mode. *)
Inductive Credentials :=
| Backend (privateKey : string)
| Frontend (signer : value).

(** Modelled from the spec: [TradingConfig] is a chain id, credentials and
    an optional builder attribution. *)
Record TradingConfig := {
  trading_chainId : Z;
  trading_credentials : Credentials;
  trading_builder : option value;
}.

(** Modelled from the spec: [RelayerConfig] is a chain id and credentials. *)
Record RelayerConfig := {
  relayer_chainId : Z;
  relayer_credentials : Credentials;
}.

(** [POLYCAVORAConfig] (its declaration is in types, not among the
    sources), with the five fields the constructor reads; the constructor's
    default argument [{}] has this type, so each field may be absent. *)
Record POLYCAVORAConfig := {
  metaBaseUrl : option string;
  wsBaseUrl : option string;
  debug : option bool;
  trading : option TradingConfig;
  relayer : option RelayerConfig;
}.

(** The object literal [{}]. *)
Definition empty : POLYCAVORAConfig :=
  {| metaBaseUrl := None; wsBaseUrl := None; debug := None;
     trading := None; relayer := None |}.

(** [{ ...cfg, trading: t, relayer: r }], where an absent [t] or [r] leaves
    the field out. *)
Definition with_namespaces (cfg : POLYCAVORAConfig)
    (t : option TradingConfig) (r : option RelayerConfig) : POLYCAVORAConfig :=
  {| metaBaseUrl := metaBaseUrl cfg; wsBaseUrl := wsBaseUrl cfg; debug := debug cfg;
     trading := t; relayer := r |}.

End Types.

(** ** The world the SDK acts on, and computations over it *)

Module Runtime.
Import Js.

(** What the REST endpoint answers to one request: nothing (the network
    failed), or a status with the body as text and decoded. *)
Inductive Reply :=
| NoResponse
| Response (status : Z) (text : string) (decoded : value).

Record LogEntry := {
  tag : string;
  payload : list (string * value);
}.

(** A vendor client that was constructed, with what it was constructed from. *)
Inductive Built :=
| BuiltTrading (cfg : Types.TradingConfig)
| BuiltRelayer (cfg : Types.RelayerConfig).

Record World := {
  console : list LogEntry;          (* lines the logger wrote *)
  built : list Built;               (* vendor clients constructed so far *)
  server : list Reply;              (* what the endpoint answers next *)
  requests : list string;           (* URLs requested so far *)
  timers : list Z;                  (* delays waited so far, in ms *)
  sockets : list Stream.Subscription;  (* the subscriptions, by handle *)
}.

Definition set_console (f : list LogEntry -> list LogEntry) (w : World) : World :=
  {| console := f (console w); built := built w; server := server w;
     requests := requests w; timers := timers w; sockets := sockets w |}.

Definition set_built (f : list Built -> list Built) (w : World) : World :=
  {| console := console w; built := f (built w); server := server w;
     requests := requests w; timers := timers w; sockets := sockets w |}.

Definition set_server (f : list Reply -> list Reply) (w : World) : World :=
  {| console := console w; built := built w; server := f (server w);
     requests := requests w; timers := timers w; sockets := sockets w |}.

Definition set_requests (f : list string -> list string) (w : World) : World :=
  {| console := console w; built := built w; server := server w;
     requests := f (requests w); timers := timers w; sockets := sockets w |}.

Definition set_timers (f : list Z -> list Z) (w : World) : World :=
  {| console := console w; built := built w; server := server w;
     requests := requests w; timers := f (timers w); sockets := sockets w |}.

Definition set_sockets
    (f : list Stream.Subscription -> list Stream.Subscription) (w : World) : World :=
  {| console := console w; built := built w; server := server w;
     requests := requests w; timers := timers w; sockets := f (sockets w) |}.

(** A call either returns or throws. *)
Inductive completion (A : Type) :=
| Normal (a : A)
| Throw (e : value).
Arguments Normal {A} a.
Arguments Throw {A} e.

(** A computation: runs on a world, completes, leaves a world. *)
Definition M (A : Type) : Type := World -> completion A * World.

Definition ret {A} (a : A) : M A := fun w => (Normal a, w).

Definition throw {A} (e : value) : M A := fun w => (Throw e, w).

Definition bind {A B} (m : M A) (k : A -> M B) : M B :=
  fun w =>
    match m w with
    | (Normal a, w') => k a w'
    | (Throw e, w') => (Throw e, w')
    end.

Definition modify (f : World -> World) : M unit := fun w => (Normal tt, f w).

#[global] Instance M_ret : MRet M := @ret.
#[global] Instance M_bind : MBind M := fun A B k m => bind m k.

(** The promise an [async] function returns, once settled. *)
Inductive promise (A : Type) :=
| Fulfilled (a : A)
| Rejected (e : value).
Arguments Fulfilled {A} a.
Arguments Rejected {A} e.

(** An [async] function never throws at the call: what its body returns or
    throws settles the promise. *)
Definition async {A} (body : M A) : M (promise A) :=
  fun w =>
    match body w with
    | (Normal a, w') => (Normal (Fulfilled a), w')
    | (Throw e, w') => (Normal (Rejected e), w')
    end.

(** [await p] *)
Definition await {A} (p : promise A) : M A :=
  match p with
  | Fulfilled a => ret a
  | Rejected e => throw e
  end.

(** Modelled from the spec: the logger (utils/logger is not among the
    sources) writes only when the debug toggle is on. *)
Record Logger := { enabled : bool }.

(** Modelled from the spec: [createLogger(debug)]. *)
Definition createLogger (debug : bool) : Logger := {| enabled := debug |}.

(** Modelled from the spec: [log.info(tag, fields)] writes one line when
    logging is on and does nothing otherwise. *)
Definition info (lg : Logger) (t : string) (fields : list (string * value)) : M unit :=
  if enabled lg
  then modify (set_console (fun c => c ++ [{| tag := t; payload := fields |}]))
  else ret tt.

(** Modelled from the spec: one HTTP GET of the data layer.  The request is
    recorded and the endpoint's next answer consumed; an endpoint with nothing
    left to say does not answer. *)
Definition http_get (url : string) : M Reply :=
  fun w =>
    let w' := set_requests (fun r => r ++ [url]) w in
    match server w with
    | [] => (Normal NoResponse, w')
    | r :: rest => (Normal r, set_server (fun _ => rest) w')
    end.

(** Modelled from the spec: waiting [ms] before a retry. *)
Definition sleep (ms : Z) : M unit := modify (set_timers (fun t => t ++ [ms])).

End Runtime.

(** ** providers/polymarket and utils/retry: the HTTP data layer *)

Module Http.
Import Js Errors Runtime.

Definition ok (status : Z) : bool := (200 <=? status) && (status <? 300).

(** Modelled from the spec: one REST call (providers/polymarket is not among
    the sources).  A 2xx answer yields the decoded body; any other answer
    raises an [HttpError] with the status and the message of the body; no
    answer raises the platform's network error. *)
Definition pmFetch (url : string) : M (promise value) :=
  async (
    r ← http_get url;
    match r with
    | NoResponse => throw (new_TypeError "fetch failed")
    | Response status text decoded =>
        if ok status then mret decoded
        else throw (new_HttpError status text VUndefined)
    end).

(** Modelled from the spec: [pmFetchMarkets] is GET {metaBaseUrl}/markets. *)
Definition pmFetchMarkets (metaBaseUrl : string) : M (promise value) :=
  pmFetch (metaBaseUrl +:+ "/markets").

(** Modelled from the spec: [pmFetchMarket] is
    GET {metaBaseUrl}/markets/{id}. *)
Definition pmFetchMarket (metaBaseUrl marketId : string) : M (promise value) :=
  pmFetch (metaBaseUrl +:+ "/markets/" +:+ marketId).

(** Modelled from the spec: a failure is transient when it is a network
    error or an HTTP error with a server-error status. *)
Definition transient (e : value) : bool :=
  if instanceof e HttpError then
    match get e "status" with
    | VNumber s => (500 <=? s) && (s <? 600)
    | _ => false
    end
  else instanceof e TypeError.

(** Modelled from the spec: what bounds the retries, the attempt count and
    the first delay. *)
Record RetryOptions := {
  maxAttempts : nat;
  baseDelayMs : Z;
}.

(** Modelled from the spec: exponential backoff.  The delay before the retry
    that follows failed attempt number [attempt] (counted from 0) doubles each
    time. *)
Definition backoff (opts : RetryOptions) (attempt : nat) : Z :=
  baseDelayMs opts * 2 ^ Z.of_nat attempt.

(** Modelled from the spec: the retry loop (utils/retry is not among the
    sources).  [remaining] attempts are left, [attempt] have been made,
    [lastErr] is what the last one threw.  A transient failure is retried
    after the backoff delay while attempts are left; any other failure, and
    the failure of the last attempt, is thrown. *)
Fixpoint retry_loop {A} (opts : RetryOptions) (fn : M (promise A))
    (remaining attempt : nat) (lastErr : value) : M A :=
  match remaining with
  | O => throw lastErr
  | S k =>
      p ← fn;
      match p with
      | Fulfilled a => mret a
      | Rejected e =>
          if transient e then
            match k with
            | O => throw e
            | S _ => sleep (backoff opts attempt);; retry_loop opts fn k (S attempt) e
            end
          else throw e
      end
  end.

(** Modelled from the spec: [withRetry(fn)] runs the retry loop with all
    its attempts left. *)
Definition withRetry {A} (opts : RetryOptions) (fn : M (promise A)) : M (promise A) :=
  async (retry_loop opts fn (maxAttempts opts) 0%nat VUndefined).

(** An answer of the endpoint that makes the call fail transiently: none at
    all, or a server-error status. *)
Definition transient_reply (r : Reply) : bool :=
  match r with
  | NoResponse => true
  | Response status _ _ => (500 <=? status) && (status <? 600)
  end.

(** An answer with a client-error status. *)
Definition client_error (status : Z) : bool := (400 <=? status) && (status <? 500).

(** The delays of [n] retries in a row, the first one after attempt [from]. *)
Definition backoffs (opts : RetryOptions) (from n : nat) : list Z :=
  backoff opts <$> seq from n.

(** The world after a call that made the requests [urls], waited [delays]
    and left the endpoint with [rest] to say. *)
Definition served (urls : list string) (delays : list Z) (rest : list Reply)
    (w : World) : World :=
  {| console := console w; built := built w; server := rest;
     requests := requests w ++ urls; timers := timers w ++ delays;
     sockets := sockets w |}.

(** What one REST call comes to, by the endpoint's answer. *)
Definition outcome_of (r : Reply) : completion value :=
  match r with
  | NoResponse => Throw (new_TypeError "fetch failed")
  | Response status text decoded =>
      if ok status then Normal decoded
      else Throw (new_HttpError status text VUndefined)
  end.

(** The promise an [async] function returns for what its body came to. *)
Definition settled {A} (c : completion A) : promise A :=
  match c with
  | Normal a => Fulfilled a
  | Throw e => Rejected e
  end.

End Http.

(** ** trading/index and relayer/index: the vendor clients *)

Module Vendor.
Import Js Runtime.

(** Modelled from the spec: a client is an object of its own, bound to the
    configuration it was constructed from; its identity tells two clients
    apart. *)
Record TradingClient := {
  trading_client_id : nat;
  trading_client_config : Types.TradingConfig;
}.

Record RelayerClient := {
  relayer_client_id : nat;
  relayer_client_config : Types.RelayerConfig;
}.

(** Modelled from the spec: [createTradingClient] (trading/index is not among
    the sources) constructs a new vendor trading client bound to the
    configuration it is given. *)
Definition createTradingClient (cfg : Types.TradingConfig) : M TradingClient :=
  fun w =>
    (Normal {| trading_client_id := length (built w); trading_client_config := cfg |},
     set_built (fun b => b ++ [BuiltTrading cfg]) w).

(** Modelled from the spec: [createRelayerClient] (relayer/index is not among
    the sources) constructs a new vendor relayer client bound to the
    configuration it is given. *)
Definition createRelayerClient (cfg : Types.RelayerConfig) : M RelayerClient :=
  fun w =>
    (Normal {| relayer_client_id := length (built w); relayer_client_config := cfg |},
     set_built (fun b => b ++ [BuiltRelayer cfg]) w).

End Vendor.

(** ** streams/orderbook in the world: subscriptions by handle *)

Module Feed.
Import Js Runtime.

(** Modelled from the spec: [pmSubscribeOrderbook] (streams/orderbook is not
    among the sources) opens one connection per subscription.  The caller's
    callback and hooks are not run here: their invocations are recorded in
    the subscription.  The function it returns is [unsubscribe] at the handle
    returned here. *)
Definition pmSubscribeOrderbook
    (wsBaseUrl marketId : string) (opts : option Stream.Hooks) : M nat :=
  fun w =>
    (Normal (length (sockets w)),
     set_sockets (fun s => s ++ [Stream.connect wsBaseUrl marketId opts]) w).

(** Modelled from the spec: the unsubscribe function of the subscription
    with handle [h]. *)
Definition unsubscribe (h : nat) : M unit :=
  modify (set_sockets (alter Stream.unsubscribe h)).

(** Modelled from the spec: the socket of subscription [h] reports [ev] to
    the handlers of that subscription. *)
Definition socket_event (h : nat) (ev : Stream.Event) : M unit :=
  modify (set_sockets (alter (Stream.on_event ev) h)).

(** What can happen around the subscriptions: a socket reports an event, the
    caller calls an unsubscribe function, the caller subscribes again. *)
Inductive Action :=
| Socket (h : nat) (ev : Stream.Event)
| Unsubscribe (h : nat)
| Subscribe (wsBaseUrl marketId : string) (opts : option Stream.Hooks).

Definition step (w : World) (a : Action) : World :=
  match a with
  | Socket h ev => snd (socket_event h ev w)
  | Unsubscribe h => snd (unsubscribe h w)
  | Subscribe base market opts => snd (pmSubscribeOrderbook base market opts w)
  end.

Definition run (acts : list Action) (w : World) : World := foldl step w acts.

(** The updates the callback of subscription [h] has received. *)
Definition delivered (h : nat) (w : World) : list Stream.OrderbookUpdate :=
  match sockets w !! h with
  | Some s => Stream.delivered s
  | None => []
  end.

Definition state (h : nat) (w : World) : option Stream.ReadyState :=
  Stream.readyState <$> sockets w !! h.

(** The socket of subscription [h] reports the frames [fs], one by one. *)
Definition frames (h : nat) (fs : list value) : list Action :=
  (fun f => Socket h (Stream.SocketMessage f)) <$> fs.

End Feed.

(** ** relayer: waiting for a transaction *)

Module Relayer.

Section Polling.
Context {TxState : Type}.
(** Which states of a transaction are terminal. *)
Variable terminal : TxState -> bool.
(** The status the relayer reports [t] ms after the call. *)
Variable status_at : Z -> TxState.
(** The fixed interval between two polls and the bound on the wait. *)
Variables pollIntervalMs maxWaitMs : Z.

Inductive Outcome :=
| Settled (s : TxState)   (* the transaction reached a terminal state *)
| TimedOut.               (* a timeout error is raised *)

Record Run := {
  outcome : Outcome;
  polled : list Z;        (* when the status was queried, oldest first *)
}.

(** Modelled from the spec: the polling loop of [waitForTransaction]
    (relayer/index is not among the sources).  The status is queried; a
    terminal state ends the loop; otherwise the loop waits one interval and
    raises the timeout error if the wait then exceeds the bound.  [fuel]
    bounds the number of polls; [None] means it ran out. *)
Fixpoint poll (fuel : nat) (elapsed : Z) (seen : list Z) : option Run :=
  match fuel with
  | O => None
  | S k =>
      let s := status_at elapsed in
      let seen := seen ++ [elapsed] in
      if terminal s then Some {| outcome := Settled s; polled := seen |}
      else
        let elapsed := elapsed + pollIntervalMs in
        if maxWaitMs <? elapsed then Some {| outcome := TimedOut; polled := seen |}
        else poll k elapsed seen
  end.

(** Modelled from the spec: [waitForTransaction] starts polling at the
    call. *)
Definition waitForTransaction (fuel : nat) : option Run := poll fuel 0 [].

(** Polls enough for any wait within the bound. *)
Definition enough : nat := S (Z.to_nat (maxWaitMs / pollIntervalMs)).

(** [n] moments one interval apart, the first one at [start]. *)
Definition schedule (start : Z) (n : nat) : list Z :=
  (fun j => start + Z.of_nat j * pollIntervalMs) <$> seq 0 n.

Definition pending (t : Z) : Prop := terminal (status_at t) = false.
End Polling.

Arguments Settled {TxState} s.
Arguments TimedOut {TxState}.

End Relayer.

(** ** client.ts: the facade *)

Module Client.
Import Js Errors Runtime.

(** The constants the facade takes from [constants] and the defaults
    [withRetry] is called with; neither is among the sources. *)
Class Constants := {
  DEFAULTS_metaBaseUrl : string;
  DEFAULTS_wsBaseUrl : string;
  retryDefaults : Http.RetryOptions;
}.

Record POLYCAVORASDK := {
  metaBaseUrl : string;
  wsBaseUrl : string;
  log : Logger;
  tradingConfig : option Types.TradingConfig;
  relayerConfig : option Types.RelayerConfig;
}.

Definition newline : string := String (Ascii.ascii_of_nat 10) "".

Definition trading_not_configured : string :=
  "Trading is not configured. Please pass 'trading' config to POLYCAVORASDK constructor. " +:+
  "Example: new POLYCAVORASDK({ trading: { chainId: 137, backend: { privateKey: '0x...' } } })".

Definition relayer_not_configured : string :=
  "Relayer is not configured. Please pass 'relayer' config to POLYCAVORASDK constructor. " +:+
  "Example: new POLYCAVORASDK({ relayer: { chainId: 137, backend: { privateKey: '0x...' } } })" +:+
  newline +:+
  "Note: Relayer is for ADVANCED gasless transactions. Most users should use 'trading' instead.".

Section Facade.
Context `{Constants}.

(** [constructor(cfg: POLYCAVORAConfig = {})].  The two namespaces it sets
    up hold closures over [this]: they are [trading_init] and
    [relayer_init] below. *)
Definition constructor (cfg : Types.POLYCAVORAConfig) : M POLYCAVORASDK :=
  let this := {|
    metaBaseUrl := default DEFAULTS_metaBaseUrl (Types.metaBaseUrl cfg);
    wsBaseUrl := default DEFAULTS_wsBaseUrl (Types.wsBaseUrl cfg);
    log := createLogger (truthy_bool (Types.debug cfg));
    tradingConfig := Types.trading cfg;
    relayerConfig := Types.relayer cfg;
  |} in
  info (log this) "init"
    [("metaBaseUrl", VString (metaBaseUrl this));
     ("wsBaseUrl", VString (wsBaseUrl this));
     ("tradingEnabled", VBoolean (present (Types.trading cfg)));
     ("relayerEnabled", VBoolean (present (Types.relayer cfg)))];;
  mret this.

(** [new POLYCAVORASDK(cfg)], [cfg] omitted or given. *)
Definition new_POLYCAVORASDK (cfg : option Types.POLYCAVORAConfig) : M POLYCAVORASDK :=
  constructor (default Types.empty cfg).

(** [this.trading.init] *)
Definition trading_init (this : POLYCAVORASDK) : M Vendor.TradingClient :=
  match tradingConfig this with
  | None => throw (new_Error trading_not_configured)
  | Some cfg => Vendor.createTradingClient cfg
  end.

(** [this.relayer.init] *)
Definition relayer_init (this : POLYCAVORASDK) : M Vendor.RelayerClient :=
  match relayerConfig this with
  | None => throw (new_Error relayer_not_configured)
  | Some cfg => Vendor.createRelayerClient cfg
  end.

(** [async getMarkets()] *)
Definition getMarkets (this : POLYCAVORASDK) : M (promise value) :=
  async (
    p ← Http.withRetry retryDefaults (Http.pmFetchMarkets (metaBaseUrl this));
    await p).

(** [async getMarket(marketId)] *)
Definition getMarket (this : POLYCAVORASDK) (marketId : string) : M (promise value) :=
  async (
    p ← Http.withRetry retryDefaults (Http.pmFetchMarket (metaBaseUrl this) marketId);
    await p).

(** [onOrderbook(marketId, cb, opts)]: the handle it returns stands for
    the unsubscribe function. *)
Definition onOrderbook (this : POLYCAVORASDK) (marketId : string)
    (opts : option Stream.Hooks) : M nat :=
  Feed.pmSubscribeOrderbook (wsBaseUrl this) marketId opts.
End Facade.

End Client.

(** ** Property access, as the code of the example uses it *)

Module Access.
Import Js Errors Runtime.

(** Expressions either have a value or throw. *)
#[global] Instance completion_ret : MRet completion := @Normal.
#[global] Instance completion_bind : MBind completion :=
  fun A B k c =>
    match c with
    | Normal a => k a
    | Throw e => Throw e
    end.

Definition nullish (v : value) : bool :=
  match v with
  | VUndefined | VNull => true
  | _ => false
  end.

(** The [TypeError] of reading property [k] of [undefined] or of [null]. *)
Definition cannot_read (v : value) (k : string) : value :=
  new_TypeError
    ("Cannot read properties of " +:+
     match v with VNull => "null" | _ => "undefined" end +:+
     " (reading '" +:+ k +:+ "')").

(** [v.k], for a name [k] no prototype defines: reading a property of
    [undefined] or [null] throws, a value without the property gives
    [undefined]. *)
Definition member (v : value) (k : string) : completion value :=
  if nullish v then Throw (cannot_read v k) else Normal (get v k).

(** [v[0]]: the first element of an array, the first character of a string,
    the property [0] of an object. *)
Definition first (v : value) : completion value :=
  match v with
  | VUndefined | VNull => Throw (cannot_read v "0")
  | VArray items => Normal (default VUndefined (head items))
  | VString s =>
      Normal match s with
             | EmptyString => VUndefined
             | String c _ => VString (String c EmptyString)
             end
  | _ => Normal (get v "0")
  end.

(** [v?.k] *)
Definition optional_member (v : value) (k : string) : completion value :=
  if nullish v then Normal VUndefined else member v k.

(** [v === "s"] *)
Definition is_string (v : value) (s : string) : bool :=
  match v with
  | VString t => String.eqb t s
  | _ => false
  end.

End Access.

(** ** examples/live-orderbook.ts *)

Module LiveOrderbook.
Import Js Errors Runtime Access.

(** One call of [console.log] or of [console.error], with its arguments. *)
Inductive Line :=
| ConsoleLog (args : list value)
| ConsoleError (args : list value).

(** [process.env.POLYNOCTON_MARKET_ID || "example-market-id"]: a variable of
    the environment is a string when it is set. *)
Definition marketId (env : option string) : string :=
  match env with
  | Some s => if String.eqb s "" then "example-market-id" else s
  | None => "example-market-id"
  end.

(** The arguments of
    [console.log("Best bid/ask:", u.data.bids[0]?.price, u.data.asks[0]?.price)],
    evaluated from left to right. *)
Definition best_bid_ask (u : value) : completion (list value) :=
  data ← member u "data";
  bids ← member data "bids";
  bid ← first bids;
  bid_price ← optional_member bid "price";
  data ← member u "data";
  asks ← member data "asks";
  ask ← first asks;
  ask_price ← optional_member ask "price";
  mret [VString "Best bid/ask:"; bid_price; ask_price].

(** The arguments of [console.log("Delta:", u.data)]. *)
Definition delta (u : value) : completion (list value) :=
  data ← member u "data";
  mret [VString "Delta:"; data].

(** The arguments of the one [console.log] the callback comes to:
    [if (u.type === "snapshot") { ... } else { ... }]. *)
Definition callback_args (u : value) : completion (list value) :=
  type ← member u "type";
  if is_string type "snapshot" then best_bid_ask u else delta u.

(** The callback given to [onOrderbook], on the lines printed so far. *)
Definition callback (u : value) (out : list Line) : completion unit * list Line :=
  match callback_args u with
  | Normal args => (Normal tt, out ++ [ConsoleLog args])
  | Throw e => (Throw e, out)
  end.

(** The three hooks given to [onOrderbook]. *)
Definition onOpen (out : list Line) : list Line :=
  out ++ [ConsoleLog [VString "WS open"]].

Definition onClose (out : list Line) : list Line :=
  out ++ [ConsoleLog [VString "WS closed"]].

Definition onError (e : value) (out : list Line) : list Line :=
  out ++ [ConsoleError [VString "WS error"; e]].

(** What the callback prints for the first entry of one side of the book:
    [side[0]?.price]. *)
Definition best_price (side : list value) : value :=
  match side with
  | [] => VUndefined
  | level :: _ => if nullish level then VUndefined else get level "price"
  end.

(** A snapshot whose [data] has both sides of the book: neither
    [u.data.bids] nor [u.data.asks] is [undefined] or [null]. *)
Definition has_both_sides (u : value) : bool :=
  negb (nullish (get (get u "data") "bids")) &&
  negb (nullish (get (get u "data") "asks")).

End LiveOrderbook.

(** ** Concrete worlds and configurations *)

Module Example.
Import Js Runtime.

Definition constants : Client.Constants :=
  {| Client.DEFAULTS_metaBaseUrl := "https://meta.example";
     Client.DEFAULTS_wsBaseUrl := "wss://ws.example";
     Client.retryDefaults := {| Http.maxAttempts := 3; Http.baseDelayMs := 200 |} |}.

(** A world in which nothing has happened, whose endpoint will answer
    [answers]. *)
Definition world (answers : list Reply) : World :=
  {| console := []; built := []; server := answers; requests := [];
     timers := []; sockets := [] |}.

Definition idle : World := world [].

(** The configurations of the examples in the documentation of the class. *)
Definition trading : Types.TradingConfig :=
  {| Types.trading_chainId := 137;
     Types.trading_credentials := Types.Backend "0x...";
     Types.trading_builder := None |}.

Definition relayer : Types.RelayerConfig :=
  {| Types.relayer_chainId := 137;
     Types.relayer_credentials := Types.Backend "0x..." |}.

Definition configured : Types.POLYCAVORAConfig :=
  Types.with_namespaces Types.empty (Some trading) (Some relayer).

(** [new POLYCAVORASDK({})] and [new POLYCAVORASDK(configured)] under
    [constants]. *)
Definition bare : Client.POLYCAVORASDK :=
  {| Client.metaBaseUrl := "https://meta.example";
     Client.wsBaseUrl := "wss://ws.example";
     Client.log := createLogger false;
     Client.tradingConfig := None;
     Client.relayerConfig := None |}.

Definition full : Client.POLYCAVORASDK :=
  {| Client.metaBaseUrl := "https://meta.example";
     Client.wsBaseUrl := "wss://ws.example";
     Client.log := createLogger false;
     Client.tradingConfig := Some trading;
     Client.relayerConfig := Some relayer |}.

(** The endpoint fails twice, once with a 500 and once without an answer,
    and then answers with an empty list of markets. *)
Definition flaky : list Reply :=
  [Response 500 "Internal Server Error" VNull; NoResponse; Response 200 "[]" (VArray [])].

Definition not_found : list Reply :=
  [Response 404 "Not Found" VNull; Response 200 "[]" (VArray [])].

(** [idle] after one subscription. *)
Definition subscribed : World :=
  set_sockets (fun s => s ++ [Stream.connect "wss://ws.example" "market" None]) idle.

(** [subscribed] after its socket opened. *)
Definition streaming : World :=
  Feed.run [Feed.Socket 0 Stream.SocketOpen] subscribed.

Definition book : value :=
  VObject Object (<["asks" := VArray []]> (<["bids" := VArray []]> ∅)).

(** What goes on after an unsubscribe call: the socket opens, frames arrive,
    the caller unsubscribes again, the socket closes. *)
Definition aftermath : list Feed.Action :=
  [Feed.Socket 0 Stream.SocketOpen;
   Feed.Socket 0 (Stream.SocketMessage (Stream.frame_of (Stream.Snapshot book)));
   Feed.Unsubscribe 0;
   Feed.Socket 0 (Stream.SocketMessage (Stream.frame_of (Stream.Delta VNull)));
   Feed.Socket 0 Stream.SocketClose].

(** A transaction that is pending ([false]) for 2.5 s and then mined. *)
Definition mined_after_2500 (t : Z) : bool := 2500 <=? t.

End Example.

(** ** Concrete updates for the example's callback *)

Module Sample.
Import Js Runtime.

Definition level (price size : Z) : value :=
  VObject Object (<["size" := VNumber size]> (<["price" := VNumber price]> ∅)).

(** A snapshot with one bid at 41 and no ask. *)
Definition snapshot : value :=
  Stream.frame_of (Stream.Snapshot
    (VObject Object (<["asks" := VArray []]> (<["bids" := VArray [level 41 10]]> ∅)))).

(** A snapshot whose data has bids and no asks field. *)
Definition lopsided : value :=
  Stream.frame_of (Stream.Snapshot
    (VObject Object (<["bids" := VArray [level 41 10]]> ∅))).

(** A frame that is neither a snapshot nor a delta. *)
Definition heartbeat : value :=
  VObject Object (<["type" := VString "heartbeat"]> ∅).

(** A configuration that overrides both base URLs, the first with the empty
    string. *)
Definition overridden : Types.POLYCAVORAConfig :=
  {| Types.metaBaseUrl := Some ""; Types.wsBaseUrl := Some "wss://other.example";
     Types.debug := Some true; Types.trading := Some Example.trading;
     Types.relayer := None |}.

(** [new POLYCAVORASDK(overridden)] *)
Definition custom : Client.POLYCAVORASDK :=
  {| Client.metaBaseUrl := ""; Client.wsBaseUrl := "wss://other.example";
     Client.log := createLogger true;
     Client.tradingConfig := Some Example.trading;
     Client.relayerConfig := None |}.

Definition other_trading : Types.TradingConfig :=
  {| Types.trading_chainId := 80002;
     Types.trading_credentials := Types.Backend "0xabc";
     Types.trading_builder := None |}.

End Sample.

(** * Properties *)

(** Unfolds the plumbing of computations. *)
Ltac unfold_M :=
  unfold mbind, Runtime.M_bind, Runtime.bind, mret, Runtime.M_ret, Runtime.ret,
    Runtime.throw, Runtime.modify in *;
  cbn.

(** ** The error classes *)

Section ErrorProperties.
Import Js Errors.

Lemma chain_HttpError : chain depth HttpError = [HttpError; POLYNOCTONError; Error; Object].
Proof. reflexivity. Qed.

Lemma HttpError_own_properties status message cause :
  HttpError_constructor status message cause ∅ =
  <["status" := VNumber status]>
    (<["cause" := cause]>
      (<["code" := VString "HTTP_ERROR"]>
        (<["name" := VString "POLYNOCTONError"]>
          (<["message" := VString message]> ∅)))).
Proof. reflexivity. Qed.

(** C7: the taxonomy has two levels.  An object built by the base class
    [POLYNOCTONError] carries the message, the code (undefined when none was
    given) and the cause it was built with, and no status; [HttpError]
    extends the base class, and an object built by it carries the message
    and the cause as well, and the numeric status of the response. *)
Theorem C7_error_taxonomy
    (message : string) (code : option string) (cause : value) (status : Z) :
  let base := new_POLYNOCTONError message code cause in
  let http := new_HttpError status message cause in
  extends HttpError = Some POLYNOCTONError /\
  extends POLYNOCTONError = Some Error /\
  get base "message" = VString message /\
  get base "code" = optional code /\
  get base "cause" = cause /\
  get base "status" = VUndefined /\
  get http "message" = VString message /\
  get http "cause" = cause /\
  get http "status" = VNumber status.
Proof.
  intros base http. subst base http.
  unfold new_POLYNOCTONError, new_HttpError, get.
  rewrite HttpError_own_properties.
  unfold POLYNOCTONError_constructor, Error_constructor.
  repeat split; by simplify_map_eq.
Qed.

(** C8: whatever status, message and cause an [HttpError] is built with, it
    is an instance of [POLYNOCTONError] (and of [Error]) and its code is
    the string HTTP_ERROR. *)
Theorem C8_HttpError_is_sdk_error_with_fixed_code
    (status : Z) (message : string) (cause : value) :
  let e := new_HttpError status message cause in
  instanceof e POLYNOCTONError = true /\
  instanceof e Error = true /\
  get e "code" = VString "HTTP_ERROR".
Proof.
  intros e. subst e. unfold new_HttpError, instanceof, get.
  rewrite chain_HttpError, HttpError_own_properties.
  split; [| split].
  - apply bool_decide_eq_true. set_solver.
  - apply bool_decide_eq_true. set_solver.
  - by simplify_map_eq.
Qed.
End ErrorProperties.

(** ** The facade: construction and the two namespaces *)

Section FacadeProperties.
Import Js Errors Runtime Client.
Context `{Constants}.

(** The constructor never throws, and the object it builds holds the
    configuration as given. *)
Lemma constructor_returns cfg w :
  exists w',
    constructor cfg w =
      (Normal {| metaBaseUrl := default DEFAULTS_metaBaseUrl (Types.metaBaseUrl cfg);
                 wsBaseUrl := default DEFAULTS_wsBaseUrl (Types.wsBaseUrl cfg);
                 log := createLogger (truthy_bool (Types.debug cfg));
                 tradingConfig := Types.trading cfg;
                 relayerConfig := Types.relayer cfg |}, w') /\
    built w' = built w /\ server w' = server w /\ requests w' = requests w /\
    timers w' = timers w /\ sockets w' = sockets w.
Proof.
  unfold constructor, info. cbn.
  destruct (truthy_bool (Types.debug cfg)); cbn; eauto 10.
Qed.

Lemma constructor_inv cfg w this w' :
  constructor cfg w = (Normal this, w') ->
  metaBaseUrl this = default DEFAULTS_metaBaseUrl (Types.metaBaseUrl cfg) /\
  wsBaseUrl this = default DEFAULTS_wsBaseUrl (Types.wsBaseUrl cfg) /\
  tradingConfig this = Types.trading cfg /\
  relayerConfig this = Types.relayer cfg.
Proof.
  destruct (constructor_returns cfg w) as (w'' & E & _).
  rewrite E. intros [= <- <-]. auto.
Qed.

Lemma trading_init_configured this t w :
  tradingConfig this = Some t ->
  trading_init this w =
    (Normal {| Vendor.trading_client_id := length (built w);
               Vendor.trading_client_config := t |},
     set_built (fun b => b ++ [BuiltTrading t]) w).
Proof. unfold trading_init. by intros ->. Qed.

Lemma relayer_init_configured this r w :
  relayerConfig this = Some r ->
  relayer_init this w =
    (Normal {| Vendor.relayer_client_id := length (built w);
               Vendor.relayer_client_config := r |},
     set_built (fun b => b ++ [BuiltRelayer r]) w).
Proof. unfold relayer_init. by intros ->. Qed.

(** C4: on an SDK built from [cfg], in any later world [u]:
    without trading configuration [trading.init()] throws, at the call
    and leaving the world as it was, an [Error] whose message starts with
    "Trading is not configured"; with trading configuration [t] it returns
    a client bound to [t].  The same holds of [relayer.init()] and the
    relayer configuration, the message starting with "Relayer is not
    configured". *)
Theorem C4_init_fails_at_the_call_without_configuration
    (cfg : Types.POLYCAVORAConfig) (w u : World) :
  exists this w',
    constructor cfg w = (Normal this, w') /\
    match Types.trading cfg with
    | None =>
        exists e message,
          trading_init this u = (Throw e, u) /\
          instanceof e Error = true /\
          get e "message" = VString message /\
          String.prefix "Trading is not configured" message = true
    | Some t =>
        exists client u',
          trading_init this u = (Normal client, u') /\
          Vendor.trading_client_config client = t
    end /\
    match Types.relayer cfg with
    | None =>
        exists e message,
          relayer_init this u = (Throw e, u) /\
          instanceof e Error = true /\
          get e "message" = VString message /\
          String.prefix "Relayer is not configured" message = true
    | Some r =>
        exists client u',
          relayer_init this u = (Normal client, u') /\
          Vendor.relayer_client_config client = r
    end.
Proof.
  destruct (constructor_returns cfg w) as (w' & E & _).
  eexists _, w'. split; [exact E |]. split.
  - destruct (Types.trading cfg) as [t|] eqn:Et.
    + eexists _, _. split; [by apply trading_init_configured |]. done.
    + exists (new_Error trading_not_configured), trading_not_configured.
      unfold trading_init. cbn. by repeat split.
  - destruct (Types.relayer cfg) as [r|] eqn:Er.
    + eexists _, _. split; [by apply relayer_init_configured |]. done.
    + exists (new_Error relayer_not_configured), relayer_not_configured.
      unfold relayer_init. cbn. by repeat split.
Qed.

(** C9: on an SDK built from a configuration with trading configuration
    [t], two calls of [trading.init()] in a row both return a client built
    from [t], the two clients are different objects, and each call
    constructed one: nothing is cached.  The same holds of
    [relayer.init()] and the relayer configuration [r]. *)
Theorem C9_init_constructs_a_new_client_each_call
    (cfg : Types.POLYCAVORAConfig) (w w' : World) (this : POLYCAVORASDK)
    (Hnew : constructor cfg w = (Normal this, w')) (u : World) :
  (forall t, Types.trading cfg = Some t ->
     exists c1 u1 c2 u2,
       trading_init this u = (Normal c1, u1) /\
       trading_init this u1 = (Normal c2, u2) /\
       Vendor.trading_client_config c1 = t /\
       Vendor.trading_client_config c2 = t /\
       Vendor.trading_client_id c1 <> Vendor.trading_client_id c2 /\
       built u2 = built u ++ [BuiltTrading t; BuiltTrading t]) /\
  (forall r, Types.relayer cfg = Some r ->
     exists c1 u1 c2 u2,
       relayer_init this u = (Normal c1, u1) /\
       relayer_init this u1 = (Normal c2, u2) /\
       Vendor.relayer_client_config c1 = r /\
       Vendor.relayer_client_config c2 = r /\
       Vendor.relayer_client_id c1 <> Vendor.relayer_client_id c2 /\
       built u2 = built u ++ [BuiltRelayer r; BuiltRelayer r]).
Proof.
  apply constructor_inv in Hnew as (_ & _ & Ht & Hr).
  split.
  - intros t Et. rewrite Et in Ht.
    eexists _, _, _, _.
    split; [by apply trading_init_configured |].
    split; [by apply trading_init_configured |].
    cbn. rewrite length_app, <- app_assoc. cbn.
    repeat split; first [lia | done].
  - intros r Er. rewrite Er in Hr.
    eexists _, _, _, _.
    split; [by apply relayer_init_configured |].
    split; [by apply relayer_init_configured |].
    cbn. rewrite length_app, <- app_assoc. cbn.
    repeat split; first [lia | done].
Qed.
End FacadeProperties.

(** ** The HTTP data layer: retries *)

Section RetryProperties.
Import Js Errors Runtime Http.

(** What one REST call does: one request, and the promise settles by the
    endpoint's next answer. *)
Lemma pmFetch_run url w :
  pmFetch url w =
    match server w with
    | [] => (Normal (settled (outcome_of NoResponse)), served [url] [] [] w)
    | r :: rest => (Normal (settled (outcome_of r)), served [url] [] rest w)
    end.
Proof.
  destruct w as [c b srv rq tm so]. unfold pmFetch, async, http_get, served.
  unfold_M.
  destruct srv as [|[|status text decoded] rest]; cbn; rewrite ?app_nil_r; try done.
  destruct (ok status); cbn; by rewrite ?app_nil_r.
Qed.

Lemma transient_TypeError message : transient (new_TypeError message) = true.
Proof. reflexivity. Qed.

Lemma transient_HttpError status text cause :
  transient (new_HttpError status text cause) = (500 <=? status) && (status <? 600).
Proof. reflexivity. Qed.

Lemma server_error_not_ok status :
  (500 <=? status) && (status <? 600) = true -> ok status = false.
Proof.
  intros [H1 _]%andb_prop. apply Z.leb_le in H1.
  unfold ok. apply andb_false_iff. right. apply Z.ltb_ge. lia.
Qed.

Lemma client_error_not_ok status : client_error status = true -> ok status = false.
Proof.
  intros [H1 _]%andb_prop. apply Z.leb_le in H1.
  unfold ok. apply andb_false_iff. right. apply Z.ltb_ge. lia.
Qed.

Lemma client_error_not_server_error status :
  client_error status = true -> (500 <=? status) && (status <? 600) = false.
Proof.
  intros [_ H2]%andb_prop. apply Z.ltb_lt in H2.
  apply andb_false_iff. left. apply Z.leb_gt. lia.
Qed.

Lemma ok_not_server_error status :
  ok status = true -> (500 <=? status) && (status <? 600) = false.
Proof.
  intros [_ H2]%andb_prop. apply Z.ltb_lt in H2.
  apply andb_false_iff. left. apply Z.leb_gt. lia.
Qed.

(** A transient answer makes the call throw a transient error. *)
Lemma transient_reply_outcome f :
  transient_reply f = true ->
  exists e, outcome_of f = Throw e /\ transient e = true.
Proof.
  destruct f as [|status text decoded]; cbn; intros Hf.
  - eexists. split; [done |]. apply transient_TypeError.
  - rewrite (server_error_not_ok _ Hf). eexists. split; [done |].
    by rewrite transient_HttpError.
Qed.

(** An answer that is not transient ends the loop: with the body, or with an
    error the loop does not retry. *)
Lemma final_reply_outcome r :
  transient_reply r = false ->
  match outcome_of r with
  | Normal _ => True
  | Throw e => transient e = false
  end.
Proof.
  destruct r as [|status text decoded]; cbn; [done |]. intros Hr.
  destruct (ok status); [done |]. by rewrite transient_HttpError.
Qed.

(** One turn of the retry loop. *)
Lemma retry_loop_S {A} opts (fn : M (promise A)) k attempt lastErr w :
  retry_loop opts fn (S k) attempt lastErr w =
    match fn w with
    | (Normal (Fulfilled a), w') => (Normal a, w')
    | (Normal (Rejected e), w') =>
        if transient e then
          match k with
          | O => (Throw e, w')
          | S _ => retry_loop opts fn k (S attempt) e
                     (set_timers (fun t => t ++ [backoff opts attempt]) w')
          end
        else (Throw e, w')
    | (Throw e, w') => (Throw e, w')
    end.
Proof.
  cbn [retry_loop]. unfold mbind, M_bind, bind.
  destruct (fn w) as [[[a|e]|e] w']; try done.
  destruct (transient e); [| done]. by destruct k.
Qed.

Lemma served_served urls1 delays1 rest1 urls2 delays2 rest2 w :
  served urls2 delays2 rest2 (served urls1 delays1 rest1 w) =
  served (urls1 ++ urls2) (delays1 ++ delays2) rest2 w.
Proof. unfold served. cbn. by rewrite !app_assoc. Qed.

Lemma set_timers_served d urls delays rest w :
  set_timers (fun t => t ++ [d]) (served urls delays rest w) =
  served urls (delays ++ [d]) rest w.
Proof. unfold served, set_timers. cbn. by rewrite !app_assoc. Qed.

(** After [failures] transient failures in a row and then an answer [r] that
    is not transient, with attempts enough for all of them, the loop comes to
    what [r] makes of the call: it made one request per answer, waited the
    doubling delays in between, and asked nothing after [r]. *)
Lemma retry_loop_settles opts url failures r rest :
  forallb transient_reply failures = true ->
  transient_reply r = false ->
  forall remaining attempt lastErr w,
    server w = failures ++ r :: rest ->
    (length failures < remaining)%nat ->
    retry_loop opts (pmFetch url) remaining attempt lastErr w =
      (outcome_of r,
       served (replicate (S (length failures)) url)
              (backoffs opts attempt (length failures)) rest w).
Proof.
  intros Hfail Hr.
  induction failures as [|f failures IH]; intros remaining attempt lastErr w Hsrv Hlt;
    (destruct remaining as [|k]; [cbn in Hlt; lia |]);
    rewrite retry_loop_S, pmFetch_run, Hsrv; cbn [app].
  - pose proof (final_reply_outcome r Hr) as Hfinal.
    destruct (outcome_of r) as [a|e]; cbn; [done |]. by rewrite Hfinal.
  - cbn in Hfail. apply andb_prop in Hfail as [Hf Hfail].
    cbn [length] in Hlt.
    destruct (transient_reply_outcome f Hf) as (e & -> & He). cbn [settled].
    rewrite He. destruct k as [|k]; [lia |].
    rewrite (IH Hfail (S k) (S attempt)); [| done | lia].
    by rewrite set_timers_served, served_served.
Qed.

(** Whatever the endpoint answers, the loop makes no more requests than it
    has attempts left, all of them to [url]. *)
Lemma retry_loop_requests opts url remaining :
  forall attempt lastErr w,
    exists n,
      (n <= remaining)%nat /\
      requests (snd (retry_loop opts (pmFetch url) remaining attempt lastErr w)) =
        requests w ++ replicate n url.
Proof.
  induction remaining as [|k IH]; intros attempt lastErr w.
  - exists 0%nat. cbn. by rewrite app_nil_r.
  - rewrite retry_loop_S, pmFetch_run.
    assert (Hturn : forall r rest,
      exists n,
        (n <= S k)%nat /\
        requests (snd
          match settled (outcome_of r) with
          | Fulfilled a => (Normal a, served [url] [] rest w)
          | Rejected e =>
              if transient e then
                match k with
                | O => (Throw e, served [url] [] rest w)
                | S _ => retry_loop opts (pmFetch url) k (S attempt) e
                           (set_timers (fun t => t ++ [backoff opts attempt])
                              (served [url] [] rest w))
                end
              else (Throw e, served [url] [] rest w)
          end) = requests w ++ replicate n url).
    { intros r rest.
      destruct (settled (outcome_of r)) as [a|e]; [by exists 1%nat; split; [lia |] |].
      destruct (transient e); [| by exists 1%nat; split; [lia |]].
      destruct k as [|k']; [by exists 1%nat; split; [lia |] |].
      destruct (IH (S attempt) e
                  (set_timers (fun t => t ++ [backoff opts attempt])
                     (served [url] [] rest w))) as (n & Hn & ->).
      exists (S n). split; [lia |]. cbn. by rewrite <- app_assoc. }
    destruct (server w) as [|r rest]; apply Hturn.
Qed.
End RetryProperties.

(** ** The facade: the data layer *)

Section DataLayerProperties.
Import Js Errors Runtime Http Client.
Context `{Constants}.

(** A facade call settles its promise with what the retry loop returns or
    throws. *)
Lemma facade_call_run (fn : M (promise value)) w :
  async (p ← withRetry retryDefaults fn; await p) w =
    let (c, w') :=
      retry_loop retryDefaults fn (maxAttempts retryDefaults) 0%nat VUndefined w in
    (Normal (settled c), w').
Proof.
  unfold withRetry, async, await. unfold_M.
  by destruct (retry_loop _ _ _ _ _ w) as [[a|e] w'].
Qed.

Lemma facade_call_settles url w failures r rest :
  server w = failures ++ r :: rest ->
  forallb transient_reply failures = true ->
  transient_reply r = false ->
  (length failures < maxAttempts retryDefaults)%nat ->
  async (p ← withRetry retryDefaults (pmFetch url); await p) w =
    (Normal (settled (outcome_of r)),
     served (replicate (S (length failures)) url)
            (backoffs retryDefaults 0 (length failures)) rest w).
Proof.
  intros Hsrv Hfail Hr Hlt.
  rewrite facade_call_run.
  by rewrite (retry_loop_settles _ url failures r rest Hfail Hr _ _ _ w Hsrv Hlt).
Qed.

Lemma facade_call_requests url w :
  exists n,
    (n <= maxAttempts retryDefaults)%nat /\
    requests (snd (async (p ← withRetry retryDefaults (pmFetch url); await p) w)) =
      requests w ++ replicate n url.
Proof.
  rewrite facade_call_run.
  destruct (retry_loop_requests retryDefaults url (maxAttempts retryDefaults)
              0%nat VUndefined w) as (n & Hn & Hreq).
  exists n. split; [done |].
  by destruct (retry_loop _ _ _ _ _ w) as [c w'].
Qed.

Lemma facade_call_succeeds url w failures status text decoded rest :
  server w = failures ++ Response status text decoded :: rest ->
  forallb transient_reply failures = true ->
  ok status = true ->
  (length failures < maxAttempts retryDefaults)%nat ->
  async (p ← withRetry retryDefaults (pmFetch url); await p) w =
    (Normal (Fulfilled decoded),
     served (replicate (S (length failures)) url)
            (backoffs retryDefaults 0 (length failures)) rest w).
Proof.
  intros Hsrv Hfail Hok Hlt.
  rewrite (facade_call_settles url w failures (Response status text decoded) rest);
    try done.
  - cbn. by rewrite Hok.
  - cbn. by apply ok_not_server_error.
Qed.

Lemma facade_call_client_error url w failures status text decoded rest :
  server w = failures ++ Response status text decoded :: rest ->
  forallb transient_reply failures = true ->
  client_error status = true ->
  (length failures < maxAttempts retryDefaults)%nat ->
  async (p ← withRetry retryDefaults (pmFetch url); await p) w =
    (Normal (Rejected (new_HttpError status text VUndefined)),
     served (replicate (S (length failures)) url)
            (backoffs retryDefaults 0 (length failures)) rest w).
Proof.
  intros Hsrv Hfail Hce Hlt.
  rewrite (facade_call_settles url w failures (Response status text decoded) rest);
    try done.
  - cbn. by rewrite (client_error_not_ok _ Hce).
  - cbn. by apply client_error_not_server_error.
Qed.

(** C2: when the endpoint answers a [getMarkets] or [getMarket] call with
    transient failures (no response, or a 5xx status) and then a 2xx answer,
    and the failures are fewer than the configured number of attempts, the
    call is fulfilled with the body of that answer, having made one request
    per answer and waited the doubling delays between them; and whatever the
    endpoint answers, the requests the call makes are no more than the
    configured number of attempts. *)
Theorem C2_transient_failures_are_retried_within_the_bound
    (this : POLYCAVORASDK) (marketId : string) :
  (forall w failures status text decoded rest,
     server w = failures ++ Response status text decoded :: rest ->
     forallb transient_reply failures = true ->
     ok status = true ->
     (length failures < maxAttempts retryDefaults)%nat ->
     getMarkets this w =
       (Normal (Fulfilled decoded),
        served (replicate (S (length failures)) (metaBaseUrl this +:+ "/markets"))
               (backoffs retryDefaults 0 (length failures)) rest w) /\
     getMarket this marketId w =
       (Normal (Fulfilled decoded),
        served (replicate (S (length failures))
                  (metaBaseUrl this +:+ "/markets/" +:+ marketId))
               (backoffs retryDefaults 0 (length failures)) rest w)) /\
  (forall w,
     (exists n,
        (n <= maxAttempts retryDefaults)%nat /\
        requests (snd (getMarkets this w)) =
          requests w ++ replicate n (metaBaseUrl this +:+ "/markets")) /\
     (exists n,
        (n <= maxAttempts retryDefaults)%nat /\
        requests (snd (getMarket this marketId w)) =
          requests w ++ replicate n (metaBaseUrl this +:+ "/markets/" +:+ marketId))).
Proof.
  split.
  - intros w failures status text decoded rest Hsrv Hfail Hok Hlt.
    split; by apply (facade_call_succeeds _ w failures status text decoded rest).
  - intros w. split; apply facade_call_requests.
Qed.

(** C3: when a [getMarkets] or [getMarket] call receives a client-error
    status (400 to 499), at the first attempt or after transient failures
    fewer than the configured number of attempts, the call is rejected with an
    [HttpError] that carries that status, and nothing is retried: the answer
    with the client-error status is the last one asked for, and no delay is
    waited after it. *)
Theorem C3_client_errors_are_not_retried
    (this : POLYCAVORASDK) (marketId : string)
    (w : World) (failures : list Reply)
    (status : Z) (text : string) (decoded : value) (rest : list Reply)
    (Hsrv : server w = failures ++ Response status text decoded :: rest)
    (Hfail : forallb transient_reply failures = true)
    (Hstatus : client_error status = true)
    (Hmax : (length failures < maxAttempts retryDefaults)%nat) :
  let e := new_HttpError status text VUndefined in
  getMarkets this w =
    (Normal (Rejected e),
     served (replicate (S (length failures)) (metaBaseUrl this +:+ "/markets"))
            (backoffs retryDefaults 0 (length failures)) rest w) /\
  getMarket this marketId w =
    (Normal (Rejected e),
     served (replicate (S (length failures))
               (metaBaseUrl this +:+ "/markets/" +:+ marketId))
            (backoffs retryDefaults 0 (length failures)) rest w) /\
  instanceof e HttpError = true /\
  get e "status" = VNumber status.
Proof.
  intros e. subst e.
  split; [by apply (facade_call_client_error _ w failures status text decoded rest) |].
  split; [by apply (facade_call_client_error _ w failures status text decoded rest) |].
  by split.
Qed.

(** C10: the constructor accepts the empty configuration, given or left
    out: it returns, without a log line, an SDK with the two default base
    URLs.  Adding or removing the trading and relayer parts of any
    configuration changes nothing in what [getMarkets], [getMarket] and
    [onOrderbook] do.  On the SDK built from the empty configuration, with at
    least one attempt configured, [getMarkets] and [getMarket] are fulfilled
    with the body of a 2xx answer, and [onOrderbook] returns the handle of a
    new subscription to the default stream URL. *)
Theorem C10_empty_configuration_suffices (w : World) :
  exists bare,
    new_POLYCAVORASDK None w = (Normal bare, w) /\
    new_POLYCAVORASDK (Some Types.empty) w = (Normal bare, w) /\
    metaBaseUrl bare = DEFAULTS_metaBaseUrl /\
    wsBaseUrl bare = DEFAULTS_wsBaseUrl /\
    (forall cfg t r, exists this this' w1 w2,
       constructor cfg w = (Normal this, w1) /\
       constructor (Types.with_namespaces cfg t r) w = (Normal this', w2) /\
       forall marketId opts u,
         getMarkets this' u = getMarkets this u /\
         getMarket this' marketId u = getMarket this marketId u /\
         onOrderbook this' marketId opts u = onOrderbook this marketId opts u) /\
    (forall marketId opts u,
       onOrderbook bare marketId opts u =
         (Normal (length (sockets u)),
          set_sockets
            (fun s => s ++ [Stream.connect DEFAULTS_wsBaseUrl marketId opts]) u)) /\
    (forall marketId u status text decoded rest,
       server u = Response status text decoded :: rest ->
       ok status = true ->
       (1 <= maxAttempts retryDefaults)%nat ->
       getMarkets bare u =
         (Normal (Fulfilled decoded),
          served [DEFAULTS_metaBaseUrl +:+ "/markets"] [] rest u) /\
       getMarket bare marketId u =
         (Normal (Fulfilled decoded),
          served [DEFAULTS_metaBaseUrl +:+ "/markets/" +:+ marketId] [] rest u)).
Proof.
  eexists. split; [reflexivity |]. split; [reflexivity |].
  split; [reflexivity |]. split; [reflexivity |]. split; [| split].
  - intros cfg t r.
    destruct (constructor_returns cfg w) as (w1 & E1 & _).
    destruct (constructor_returns (Types.with_namespaces cfg t r) w) as (w2 & E2 & _).
    eexists _, _, w1, w2. split; [exact E1 |]. split; [exact E2 |].
    intros marketId opts u. by repeat split.
  - intros marketId opts u. reflexivity.
  - intros marketId u status text decoded rest Hsrv Hok Hmax.
    split.
    + by apply (facade_call_succeeds _ u [] status text decoded rest).
    + by apply (facade_call_succeeds _ u [] status text decoded rest).
Qed.
End DataLayerProperties.

(** ** The streaming layer *)

Section StreamProperties.
Import Js Runtime Stream.

Lemma updates_of_app l1 l2 : updates_of (l1 ++ l2) = updates_of l1 ++ updates_of l2.
Proof. apply omap_app. Qed.

Lemma delivered_with_state st s : delivered (with_state st s) = delivered s.
Proof. reflexivity. Qed.

(** A hook is no update. *)
Lemma delivered_invoke_hook given i s :
  (forall u, i <> Cb u) ->
  delivered (invoke_hook given i s) = delivered s.
Proof.
  intros Hi. destruct given; [| done].
  unfold delivered, invoke_hook, invoke. cbn. rewrite updates_of_app.
  destruct i; cbn; rewrite ?app_nil_r; try done. by destruct (Hi u).
Qed.

Lemma readyState_invoke_hook given i s :
  readyState (invoke_hook given i s) = readyState s.
Proof. by destruct given. Qed.

Lemma classify_frame_of u : classify (frame_of u) = Some u.
Proof. by destruct u. Qed.

Lemma omap_frame_of (us : list OrderbookUpdate) :
  omap classify (frame_of <$> us) = us.
Proof.
  induction us as [|u us IH]; [done |].
  cbn [fmap list_fmap omap list_omap]. by rewrite classify_frame_of, IH.
Qed.

(** Once the connection is closing, no event reopens it or reaches the
    callback. *)
Lemma on_event_closing ev s :
  closing s = true ->
  closing (on_event ev s) = true /\ delivered (on_event ev s) = delivered s.
Proof.
  unfold closing, on_event.
  destruct ev, (readyState s) eqn:E; intros Hc; try done;
    rewrite ?E, ?readyState_invoke_hook, ?delivered_invoke_hook by done;
    by split.
Qed.

Lemma unsubscribe_closing s :
  closing (unsubscribe s) = true /\ delivered (unsubscribe s) = delivered s.
Proof.
  unfold closing, unsubscribe. destruct (readyState s) eqn:E; cbn; by rewrite ?E.
Qed.

Lemma unsubscribe_idempotent s : closing s = true -> unsubscribe s = s.
Proof. unfold closing, unsubscribe. by destruct (readyState s). Qed.

(** While the connection is open, a frame leaves it open and reaches the
    callback exactly when it classifies. *)
Lemma on_message_open frame s :
  readyState s = Open ->
  readyState (on_event (SocketMessage frame) s) = Open /\
  delivered (on_event (SocketMessage frame) s) =
    delivered s ++ option_list (classify frame).
Proof.
  intros E. unfold on_event. rewrite E.
  destruct (classify frame) as [u|]; cbn.
  - split; [done |]. unfold delivered. cbn. by rewrite updates_of_app.
  - by rewrite app_nil_r.
Qed.
End StreamProperties.

Section FeedProperties.
Import Js Runtime Stream Feed.

(** Subscription [h] is cut off with [d] delivered: its connection is
    closing and its callback has received [d]. *)
Lemma cut_off_step h d w a :
  (exists s, sockets w !! h = Some s /\ closing s = true /\ Stream.delivered s = d) ->
  exists s, sockets (step w a) !! h = Some s /\ closing s = true /\ Stream.delivered s = d.
Proof.
  intros (s & Hs & Hc & Hd).
  destruct a as [h' ev | h' | base market opts]; cbn.
  - destruct (decide (h' = h)) as [-> | Hne].
    + rewrite list_lookup_alter_eq, Hs. cbn.
      destruct (on_event_closing ev s Hc) as [Hc' Hd'].
      eexists. split; [done |]. split; [done | congruence].
    + rewrite list_lookup_alter_ne by done. eauto.
  - destruct (decide (h' = h)) as [-> | Hne].
    + rewrite list_lookup_alter_eq, Hs. cbn.
      rewrite (unsubscribe_idempotent s Hc). eauto.
    + rewrite list_lookup_alter_ne by done. eauto.
  - erewrite lookup_app_l_Some by done. eauto.
Qed.

Lemma cut_off_run h d acts :
  forall w,
    (exists s, sockets w !! h = Some s /\ closing s = true /\ Stream.delivered s = d) ->
    exists s, sockets (run acts w) !! h = Some s /\ closing s = true /\ Stream.delivered s = d.
Proof.
  unfold run. induction acts as [|a acts IH]; intros w Hw; [done |].
  cbn. apply IH. by apply cut_off_step.
Qed.

(** A subscription stays in the world whatever happens. *)
Lemma handle_step h w a :
  is_Some (sockets w !! h) -> is_Some (sockets (step w a) !! h).
Proof.
  intros [s Hs].
  destruct a as [h' ev | h' | base market opts]; cbn.
  - destruct (decide (h' = h)) as [-> | Hne].
    + rewrite list_lookup_alter_eq, Hs. by eexists.
    + rewrite list_lookup_alter_ne by done. by eexists.
  - destruct (decide (h' = h)) as [-> | Hne].
    + rewrite list_lookup_alter_eq, Hs. by eexists.
    + rewrite list_lookup_alter_ne by done. by eexists.
  - erewrite lookup_app_l_Some by done. by eexists.
Qed.

Lemma handle_run h acts :
  forall w, is_Some (sockets w !! h) -> is_Some (sockets (run acts w) !! h).
Proof.
  unfold run. induction acts as [|a acts IH]; intros w Hw; [done |].
  cbn. apply IH. by apply handle_step.
Qed.

Lemma subscribe_handle base market opts w h w1 :
  pmSubscribeOrderbook base market opts w = (Normal h, w1) ->
  sockets w1 !! h = Some (connect base market opts).
Proof.
  unfold pmSubscribeOrderbook. intros [= <- <-]. cbn.
  by rewrite lookup_app_r, Nat.sub_diag.
Qed.

(** One frame on an open connection. *)
Lemma frame_step h f w :
  state h w = Some Open ->
  state h (step w (Socket h (SocketMessage f))) = Some Open /\
  Feed.delivered h (step w (Socket h (SocketMessage f))) =
    Feed.delivered h w ++ option_list (classify f).
Proof.
  unfold state, Feed.delivered, step, socket_event, modify.
  cbn [snd sockets set_sockets].
  rewrite list_lookup_alter_eq.
  destruct (sockets w !! h) as [s|]; [| done].
  cbn [fmap option_fmap option_map]. intros [= Hopen].
  destruct (on_message_open f s Hopen) as [Ho Hd].
  by rewrite Ho, Hd.
Qed.

(** Frames that arrive on an open connection reach the callback in the
    order of arrival, each one that classifies as its update. *)
Lemma frames_delivered h fs :
  forall w,
    state h w = Some Open ->
    state h (run (frames h fs) w) = Some Open /\
    Feed.delivered h (run (frames h fs) w) = Feed.delivered h w ++ omap classify fs.
Proof.
  induction fs as [|f fs IH]; intros w Hw.
  - cbn. by rewrite app_nil_r.
  - change (run (frames h (f :: fs)) w)
      with (run (frames h fs) (step w (Socket h (SocketMessage f)))).
    destruct (frame_step h f w Hw) as [Ho Hd].
    destruct (IH _ Ho) as [IH1 IH2].
    split; [exact IH1 |].
    rewrite IH2, Hd, <- app_assoc. f_equal.
    cbn. by destruct (classify f).
Qed.
End FeedProperties.

Section SubscriptionProperties.
Import Js Runtime Client.
Context `{Constants}.

(** C1: let [h] be the subscription [onOrderbook] created.  Whatever happened
    [before], the unsubscribe function returns and leaves the connection
    closing or closed; and whatever happens [after] it returned (frames or
    other events on this socket or on others, further calls of this or of
    other unsubscribe functions, new subscriptions) the callback of [h] has
    received exactly what it had received when the call returned.  Calling
    the unsubscribe function again changes nothing.  [before] may be empty
    or hold no open event: the connection need not have reached Open. *)
Theorem C1_no_callback_after_unsubscribe
    (this : POLYCAVORASDK) (marketId : string) (opts : option Stream.Hooks)
    (w w1 : World) (h : nat)
    (Hsub : onOrderbook this marketId opts w = (Normal h, w1))
    (before after : list Feed.Action) :
  let w2 := Feed.run before w1 in
  let w3 := snd (Feed.unsubscribe h w2) in
  Feed.unsubscribe h w2 = (Normal tt, w3) /\
  (Feed.state h w3 = Some Stream.Closing \/ Feed.state h w3 = Some Stream.Closed) /\
  Feed.unsubscribe h w3 = (Normal tt, w3) /\
  Feed.delivered h (Feed.run after w3) = Feed.delivered h w3.
Proof.
  intros w2 w3.
  assert (Hh : is_Some (sockets w2 !! h)).
  { apply handle_run. rewrite (subscribe_handle _ _ _ _ _ _ Hsub). by eexists. }
  destruct Hh as [s Hs].
  assert (H3 : sockets w3 !! h = Some (Stream.unsubscribe s)).
  { subst w3. unfold Feed.unsubscribe, modify. cbn.
    by rewrite list_lookup_alter_eq, Hs. }
  destruct (unsubscribe_closing s) as [Hc Hd].
  split; [done |]. split; [| split].
  - unfold Feed.state. rewrite H3. cbn.
    unfold Stream.closing in Hc.
    destruct (Stream.readyState (Stream.unsubscribe s)); auto; done.
  - unfold Feed.unsubscribe, modify. f_equal.
    destruct w3 as [c b srv rq tm so]. unfold set_sockets. cbn in *. f_equal.
    apply list_eq. intros i. destruct (decide (h = i)) as [<- | Hne].
    + rewrite list_lookup_alter_eq, H3. cbn.
      by rewrite (unsubscribe_idempotent _ Hc).
    + by rewrite list_lookup_alter_ne.
  - destruct (cut_off_run h (Stream.delivered (Stream.unsubscribe s)) after w3)
      as (s' & Hs' & _ & Hd'); [by eauto |].
    unfold Feed.delivered. by rewrite Hs', H3.
Qed.

(** C5: on a subscription whose connection is open, the frames that arrive
    reach the callback one by one in the order of arrival, each as the update
    it classifies as; the frames of snapshots and deltas are delivered as
    those very updates, one invocation each; so a snapshot frame followed by
    two delta frames adds exactly these three updates, in this order, to what
    the callback has received. *)
Theorem C5_frames_reach_the_callback_in_order
    (w : World) (h : nat) (Hopen : Feed.state h w = Some Stream.Open) :
  (forall fs,
     Feed.delivered h (Feed.run (Feed.frames h fs) w) =
       Feed.delivered h w ++ omap Stream.classify fs) /\
  (forall us,
     Feed.delivered h (Feed.run (Feed.frames h (Stream.frame_of <$> us)) w) =
       Feed.delivered h w ++ us) /\
  (forall book d1 d2,
     Feed.delivered h
       (Feed.run (Feed.frames h [Stream.frame_of (Stream.Snapshot book);
                                 Stream.frame_of (Stream.Delta d1);
                                 Stream.frame_of (Stream.Delta d2)]) w) =
       Feed.delivered h w ++ [Stream.Snapshot book; Stream.Delta d1; Stream.Delta d2]).
Proof.
  split; [| split].
  - intros fs. by destruct (frames_delivered h fs w Hopen).
  - intros us. destruct (frames_delivered h (Stream.frame_of <$> us) w Hopen) as [_ ->].
    by rewrite omap_frame_of.
  - intros book d1 d2.
    destruct (frames_delivered h
      [Stream.frame_of (Stream.Snapshot book); Stream.frame_of (Stream.Delta d1);
       Stream.frame_of (Stream.Delta d2)] w Hopen) as [_ ->].
    done.
Qed.
End SubscriptionProperties.

(** ** The relayer: waiting for a transaction *)

Section PollingProperties.
Import Relayer.
Context {TxState : Type}.
Variable terminal : TxState -> bool.
Variable status_at : Z -> TxState.
Variables pollIntervalMs maxWaitMs : Z.
Hypothesis interval_positive : 0 < pollIntervalMs.

Lemma schedule_S start n :
  schedule pollIntervalMs start (S n) =
  start :: schedule pollIntervalMs (start + pollIntervalMs) n.
Proof.
  unfold schedule. cbn [seq fmap list_fmap]. f_equal; [lia |].
  rewrite <- fmap_S_seq, <- list_fmap_compose.
  apply list_fmap_ext. intros _ j _. cbn. lia.
Qed.

(** With [S n] polls enough to pass the bound and at least as much fuel, the
    loop ends: after [p] polls that saw the transaction pending, one interval
    apart, poll number [p] either sees a terminal state or is the last one
    the bound allows. *)
Lemma poll_ends n :
  forall elapsed seen fuel,
    maxWaitMs < elapsed + Z.of_nat (S n) * pollIntervalMs ->
    (S n <= fuel)%nat ->
    exists r p,
      poll terminal status_at pollIntervalMs maxWaitMs fuel elapsed seen = Some r /\
      (p <= n)%nat /\
      polled r = seen ++ schedule pollIntervalMs elapsed (S p) /\
      Forall (pending terminal status_at) (schedule pollIntervalMs elapsed p) /\
      (p = 0%nat \/ elapsed + Z.of_nat p * pollIntervalMs <= maxWaitMs) /\
      match outcome r with
      | Settled s =>
          s = status_at (elapsed + Z.of_nat p * pollIntervalMs) /\ terminal s = true
      | TimedOut =>
          pending terminal status_at (elapsed + Z.of_nat p * pollIntervalMs) /\
          maxWaitMs < elapsed + Z.of_nat (S p) * pollIntervalMs
      end.
Proof.
  induction n as [|n IH]; intros elapsed seen fuel Hbound Hfuel;
    (destruct fuel as [|k]; [lia |]); cbn [poll].
  - destruct (terminal (status_at elapsed)) eqn:Ht.
    + eexists _, 0%nat. split; [done |]. cbn [outcome polled].
      rewrite Z.add_0_r. repeat split; auto. unfold schedule. cbn. by rewrite Z.add_0_r.
    + assert ((maxWaitMs <? elapsed + pollIntervalMs) = true) as ->
        by (apply Z.ltb_lt; lia).
      eexists _, 0%nat. split; [done |]. cbn [outcome polled].
      rewrite Z.add_0_r. repeat split; auto; try lia.
      unfold schedule. cbn. by rewrite Z.add_0_r.
  - destruct (terminal (status_at elapsed)) eqn:Ht.
    + eexists _, 0%nat. split; [done |]. cbn [outcome polled].
      rewrite Z.add_0_r. repeat split; auto; try lia.
      unfold schedule. cbn. by rewrite Z.add_0_r.
    + destruct (maxWaitMs <? elapsed + pollIntervalMs) eqn:Hw.
      * apply Z.ltb_lt in Hw.
        eexists _, 0%nat. split; [done |]. cbn [outcome polled].
        rewrite Z.add_0_r. repeat split; auto; try lia.
        unfold schedule. cbn. by rewrite Z.add_0_r.
      * apply Z.ltb_ge in Hw.
        destruct (IH (elapsed + pollIntervalMs) (seen ++ [elapsed]) k)
          as (r & p & Hr & Hp & Hpolled & Hpend & Hin & Hout); [lia | lia |].
        exists r, (S p). split; [exact Hr |]. split; [lia |].
        split; [| split; [| split]].
        -- rewrite Hpolled, <- app_assoc. cbn [app].
           by rewrite (schedule_S elapsed (S p)).
        -- rewrite schedule_S. by constructor.
        -- right. destruct Hin as [-> | Hin]; lia.
        -- replace (elapsed + Z.of_nat (S p) * pollIntervalMs)
             with (elapsed + pollIntervalMs + Z.of_nat p * pollIntervalMs) by lia.
           replace (elapsed + Z.of_nat (S (S p)) * pollIntervalMs)
             with (elapsed + pollIntervalMs + Z.of_nat (S p) * pollIntervalMs) by lia.
           exact Hout.
Qed.

(** More fuel does not change a result. *)
Lemma poll_more_fuel fuel :
  forall elapsed seen r fuel',
    poll terminal status_at pollIntervalMs maxWaitMs fuel elapsed seen = Some r ->
    (fuel <= fuel')%nat ->
    poll terminal status_at pollIntervalMs maxWaitMs fuel' elapsed seen = Some r.
Proof.
  induction fuel as [|k IH]; intros elapsed seen r fuel' Hr Hle; [done |].
  destruct fuel' as [|k']; [lia |]. cbn [poll] in *.
  destruct (terminal (status_at elapsed)); [done |].
  destruct (maxWaitMs <? elapsed + pollIntervalMs); [done |].
  apply (IH _ _ _ _ Hr). lia.
Qed.

Lemma enough_passes_the_bound :
  maxWaitMs < Z.of_nat (enough pollIntervalMs maxWaitMs) * pollIntervalMs.
Proof.
  unfold enough. rewrite Nat2Z.inj_succ.
  destruct (Z.le_gt_cases 0 maxWaitMs) as [Hpos | Hneg].
  - rewrite Z2Nat.id by (apply Z.div_pos; lia).
    pose proof (Z.mul_succ_div_gt maxWaitMs pollIntervalMs interval_positive). lia.
  - assert (0 <= Z.of_nat (Z.to_nat (maxWaitMs / pollIntervalMs))) by lia. nia.
Qed.
End PollingProperties.

(** C6: with a positive interval between polls, [waitForTransaction] ends,
    given fuel for the polls the bound allows (and no more polls are made
    than that): the polls are one interval apart from the call on; every poll
    but the last saw the transaction pending; every poll after the first
    falls within the bound on the wait; and the last poll either saw a
    terminal state, which is the result, or saw the transaction pending with
    the next poll beyond the bound, and the timeout error is raised. *)
Theorem C6_waitForTransaction_ends
    {TxState : Type} (terminal : TxState -> bool) (status_at : Z -> TxState)
    (pollIntervalMs maxWaitMs : Z)
    (interval_positive : 0 < pollIntervalMs) :
  exists r p,
    (forall fuel,
       (Relayer.enough pollIntervalMs maxWaitMs <= fuel)%nat ->
       Relayer.waitForTransaction terminal status_at pollIntervalMs maxWaitMs fuel
         = Some r) /\
    (S p <= Relayer.enough pollIntervalMs maxWaitMs)%nat /\
    Relayer.polled r = Relayer.schedule pollIntervalMs 0 (S p) /\
    Forall (Relayer.pending terminal status_at) (Relayer.schedule pollIntervalMs 0 p) /\
    (p = 0%nat \/ Z.of_nat p * pollIntervalMs <= maxWaitMs) /\
    match Relayer.outcome r with
    | Relayer.Settled s =>
        s = status_at (Z.of_nat p * pollIntervalMs) /\ terminal s = true
    | Relayer.TimedOut =>
        Relayer.pending terminal status_at (Z.of_nat p * pollIntervalMs) /\
        maxWaitMs < Z.of_nat (S p) * pollIntervalMs
    end.
Proof.
  pose proof (enough_passes_the_bound pollIntervalMs maxWaitMs interval_positive) as Hb.
  unfold Relayer.enough in *.
  set (n := Z.to_nat (maxWaitMs / pollIntervalMs)) in *.
  destruct (poll_ends terminal status_at pollIntervalMs maxWaitMs n 0 [] (S n))
    as (r & p & Hr & Hp & Hpolled & Hpend & Hin & Hout); [lia | lia |].
  exists r, p.
  split; [| split; [lia |]; split; [exact Hpolled |]; split; [exact Hpend |];
            split; [exact Hin | exact Hout]].
  intros fuel Hfuel.
  by apply (poll_more_fuel terminal status_at pollIntervalMs maxWaitMs (S n)).
Qed.

(** ** The model at concrete inputs *)

(** Three transient failures use up three attempts: the call is rejected
    with the last error, after two delays. *)
Example getMarkets_gives_up :
  let w := Example.world [Runtime.Response 500 "a" Js.VNull;
                          Runtime.Response 502 "b" Js.VNull;
                          Runtime.Response 503 "c" Js.VNull;
                          Runtime.Response 200 "[]" (Js.VArray [])] in
  Client.getMarkets (H := Example.constants) Example.bare w =
    (Runtime.Normal (Runtime.Rejected (Errors.new_HttpError 503 "c" Js.VUndefined)),
     Http.served (replicate 3 "https://meta.example/markets") [200; 400]
       [Runtime.Response 200 "[]" (Js.VArray [])] w).
Proof. reflexivity. Qed.

(** A frame that arrives before the socket opened does not reach the
    callback; one that arrives after does. *)
Example frame_before_open :
  Feed.delivered 0
    (Feed.run [Feed.Socket 0 (Stream.SocketMessage (Stream.frame_of (Stream.Delta Js.VNull)));
               Feed.Socket 0 Stream.SocketOpen;
               Feed.Socket 0 (Stream.SocketMessage (Stream.frame_of (Stream.Snapshot Example.book)))]
       Example.subscribed)
    = [Stream.Snapshot Example.book].
Proof. reflexivity. Qed.

(** The hooks the caller gave are called; [onClose] also after the caller
    unsubscribed. *)
Example hooks_fire :
  Stream.invoked
    (Stream.on_event Stream.SocketClose
       (Stream.unsubscribe
          (Stream.on_event Stream.SocketOpen
             (Stream.connect "wss://ws.example" "market"
                (Some {| Stream.onError := false; Stream.onOpen := true;
                         Stream.onClose := true |})))))
    = [Stream.OnOpen; Stream.OnClose].
Proof. reflexivity. Qed.

(** The transaction is mined 2.5 s after the call: the fourth poll, 3 s
    after the call, sees it. *)
Example waitForTransaction_mined :
  Relayer.waitForTransaction (fun mined : bool => mined) Example.mined_after_2500
    1000 10000 (Relayer.enough 1000 10000)
  = Some {| Relayer.outcome := Relayer.Settled true;
            Relayer.polled := [0; 1000; 2000; 3000] |}.
Proof. reflexivity. Qed.

(** The transaction stays pending: after the poll at 3 s the next one would
    be beyond the 3.5 s allowed. *)
Example waitForTransaction_times_out :
  Relayer.waitForTransaction (fun mined : bool => mined) (fun _ => false)
    1000 3500 (Relayer.enough 1000 3500)
  = Some {| Relayer.outcome := Relayer.TimedOut;
            Relayer.polled := [0; 1000; 2000; 3000] |}.
Proof. reflexivity. Qed.

(** ** The theorems at concrete inputs *)

Lemma C1_witness :
  Client.onOrderbook Example.bare "market" None Example.idle
    = (Runtime.Normal 0%nat, Example.subscribed) /\
  Feed.delivered 0
    (Feed.run Example.aftermath (snd (Feed.unsubscribe 0 Example.subscribed))) = [].
Proof.
  split; [reflexivity |].
  pose proof (C1_no_callback_after_unsubscribe
                Example.bare "market" None Example.idle Example.subscribed 0%nat
                eq_refl [] Example.aftermath) as W.
  cbv zeta in W. destruct W as (_ & _ & _ & W).
  exact W.
Defined.

Lemma C2_witness :
  Client.getMarkets (H := Example.constants) Example.bare (Example.world Example.flaky)
    = (Runtime.Normal (Runtime.Fulfilled (Js.VArray [])),
       Http.served (replicate 3 "https://meta.example/markets") [200; 400] []
         (Example.world Example.flaky)).
Proof.
  apply (proj1 (C2_transient_failures_are_retried_within_the_bound
                  (H := Example.constants) Example.bare "market")
           (Example.world Example.flaky)
           [Runtime.Response 500 "Internal Server Error" Js.VNull; Runtime.NoResponse]
           200 "[]" (Js.VArray []) []);
    [reflexivity | reflexivity | reflexivity | cbn; lia].
Defined.

Lemma C3_witness :
  Client.getMarket (H := Example.constants) Example.bare "market"
      (Example.world Example.not_found)
    = (Runtime.Normal (Runtime.Rejected (Errors.new_HttpError 404 "Not Found" Js.VUndefined)),
       Http.served ["https://meta.example/markets/market"] []
         [Runtime.Response 200 "[]" (Js.VArray [])] (Example.world Example.not_found)).
Proof.
  apply (C3_client_errors_are_not_retried (H := Example.constants) Example.bare "market"
           (Example.world Example.not_found) [] 404 "Not Found" Js.VNull
           [Runtime.Response 200 "[]" (Js.VArray [])]);
    [reflexivity | reflexivity | reflexivity | cbn; lia].
Defined.

Lemma C5_witness :
  Feed.state 0 Example.streaming = Some Stream.Open /\
  Feed.delivered 0
    (Feed.run (Feed.frames 0 [Stream.frame_of (Stream.Snapshot Example.book);
                              Stream.frame_of (Stream.Delta (Js.VNumber 1));
                              Stream.frame_of (Stream.Delta (Js.VNumber 2))])
       Example.streaming)
    = [Stream.Snapshot Example.book; Stream.Delta (Js.VNumber 1);
       Stream.Delta (Js.VNumber 2)].
Proof.
  split; [reflexivity |].
  apply (proj2 (proj2 (C5_frames_reach_the_callback_in_order
                         Example.streaming 0%nat eq_refl))).
Defined.

Lemma C6_witness :
  0 < 1000 /\
  exists r,
    Relayer.waitForTransaction (fun mined : bool => mined) Example.mined_after_2500
      1000 10000 (Relayer.enough 1000 10000) = Some r /\
    Relayer.polled r = Relayer.schedule 1000 0 (length (Relayer.polled r)).
Proof.
  split; [reflexivity |].
  destruct (C6_waitForTransaction_ends (fun mined : bool => mined)
              Example.mined_after_2500 1000 10000 eq_refl)
    as (r & p & Hr & _ & Hpolled & _).
  exists r. split; [apply Hr; lia |].
  rewrite Hpolled at 2. unfold Relayer.schedule at 2.
  by rewrite length_fmap, length_seq.
Defined.

Lemma C9_witness :
  Client.constructor (H := Example.constants) Example.configured Example.idle
    = (Runtime.Normal Example.full, Example.idle) /\
  exists c1 u1 c2 u2,
    Client.trading_init Example.full Example.idle = (Runtime.Normal c1, u1) /\
    Client.trading_init Example.full u1 = (Runtime.Normal c2, u2) /\
    Vendor.trading_client_config c1 = Example.trading /\
    Vendor.trading_client_config c2 = Example.trading /\
    Vendor.trading_client_id c1 <> Vendor.trading_client_id c2 /\
    Runtime.built u2 =
      Runtime.built Example.idle ++
      [Runtime.BuiltTrading Example.trading; Runtime.BuiltTrading Example.trading].
Proof.
  split; [reflexivity |].
  apply (proj1 (C9_init_constructs_a_new_client_each_call (H := Example.constants)
                  Example.configured Example.idle Example.idle Example.full
                  eq_refl Example.idle)
           Example.trading eq_refl).
Defined.

Lemma C10_witness :
  exists bare,
    Client.new_POLYCAVORASDK (H := Example.constants) None Example.idle
      = (Runtime.Normal bare, Example.idle) /\
    Client.getMarkets (H := Example.constants) bare
        (Example.world [Runtime.Response 200 "[]" (Js.VArray [])])
      = (Runtime.Normal (Runtime.Fulfilled (Js.VArray [])),
         Http.served ["https://meta.example/markets"] [] []
           (Example.world [Runtime.Response 200 "[]" (Js.VArray [])])).
Proof.
  destruct (C10_empty_configuration_suffices (H := Example.constants) Example.idle)
    as (bare & Hnew & _ & _ & _ & _ & _ & Hdata).
  exists bare. split; [exact Hnew |].
  apply (Hdata "market" (Example.world [Runtime.Response 200 "[]" (Js.VArray [])])
           200 "[]" (Js.VArray []) []);
    [reflexivity | reflexivity | cbn; lia].
Defined.

(** * Further properties of the code *)

(** ** src/errors.ts *)

Section ErrorClassProperties.
Import Js Errors Access.


End ErrorClassProperties.

(** ** The facade: construction and the two namespaces, continued *)

Section ConstructionProperties.
Import Js Errors Runtime Client Access.
Context `{Constants}.

(** X3: whenever [trading.init()] or [relayer.init()] throws, the world is
    as it was, and what is thrown is an [Error] that is neither a
    [POLYNOCTONError] nor an [HttpError]: it has no code and no status. *)
Theorem X3_configuration_errors_are_plain_errors
    (this : POLYCAVORASDK) (u u' : World) (e : value)
    (Hthrow : trading_init this u = (Throw e, u') \/
              relayer_init this u = (Throw e, u')) :
  u' = u /\
  instanceof e Error = true /\
  instanceof e POLYNOCTONError = false /\
  instanceof e HttpError = false /\
  get e "code" = VUndefined /\
  get e "status" = VUndefined.
Proof.
  assert (He : u' = u /\ exists message, e = new_Error message).
  { destruct Hthrow as [Ht | Hr].
    - unfold trading_init in Ht. destruct (tradingConfig this); [done |].
      injection Ht as <- <-. eauto.
    - unfold relayer_init in Hr. destruct (relayerConfig this); [done |].
      injection Hr as <- <-. eauto. }
  destruct He as [-> [message ->]].
  unfold new_Error, Error_constructor, instanceof, get.
  cbn [chain depth extends].
  split; [done |]. split; [done |]. split; [done |]. split; [done |].
  split; by simplify_map_eq.
Qed.

(** X4: construction is lazy.  Whatever the configuration, the constructor
    returns, constructs no vendor client, sends no request, waits for nothing
    and opens no connection; when debug is absent or false it leaves the
    world as it was. *)
Theorem X4_construction_is_lazy (cfg : Types.POLYCAVORAConfig) (w : World) :
  exists this w',
    constructor cfg w = (Normal this, w') /\
    built w' = built w /\
    server w' = server w /\
    requests w' = requests w /\
    timers w' = timers w /\
    sockets w' = sockets w /\
    (Types.debug cfg = None \/ Types.debug cfg = Some false -> w' = w).
Proof.
  unfold constructor, info. unfold_M.
  destruct (Types.debug cfg) as [[|]|]; cbn;
    eexists _, _; (split; [done |]); repeat (split; [done |]).
  - by intros [? | ?].
  - done.
  - done.
Qed.

(** X5: with debug true the constructor writes exactly one line, tagged init,
    with the two base URLs in use and two booleans that say whether trading
    and relayer configuration were given; with debug absent or false it
    writes none.  So the line is the same for any two trading
    configurations, and for any two relayer configurations: no credential
    reaches the log. *)
Theorem X5_init_line_shows_no_credentials
    (cfg : Types.POLYCAVORAConfig) (w : World) :
  (forall this w',
     constructor cfg w = (Normal this, w') ->
     console w' =
       console w ++
       if truthy_bool (Types.debug cfg) then
         [{| tag := "init";
             payload :=
               [("metaBaseUrl", VString (metaBaseUrl this));
                ("wsBaseUrl", VString (wsBaseUrl this));
                ("tradingEnabled", VBoolean (present (Types.trading cfg)));
                ("relayerEnabled", VBoolean (present (Types.relayer cfg)))] |}]
       else []) /\
  (forall t t' r r',
     console (snd (constructor (Types.with_namespaces cfg (Some t) (Some r)) w)) =
     console (snd (constructor (Types.with_namespaces cfg (Some t') (Some r')) w))).
Proof.
  split.
  - intros this w'. unfold constructor, info. unfold_M.
    destruct (truthy_bool (Types.debug cfg)); cbn; intros E;
      inversion E; subst; cbn; by rewrite ?app_nil_r.
  - intros t t' r r'. unfold constructor, info, Types.with_namespaces. unfold_M.
    by destruct (Types.debug cfg) as [[|]|].
Qed.

(** X7: each namespace reads its own part of the configuration only.  Two
    SDKs built from configurations with the same trading part do the same on
    [trading.init()], whatever else differs (base URLs, debug, relayer part);
    likewise for [relayer.init()] and the relayer part. *)
Theorem X7_namespaces_read_their_own_configuration
    (cfg cfg' : Types.POLYCAVORAConfig) (w w' w1 w1' : World)
    (this this' : POLYCAVORASDK)
    (Hnew : constructor cfg w = (Normal this, w1))
    (Hnew' : constructor cfg' w' = (Normal this', w1')) :
  (Types.trading cfg = Types.trading cfg' ->
     forall u, trading_init this u = trading_init this' u) /\
  (Types.relayer cfg = Types.relayer cfg' ->
     forall u, relayer_init this u = relayer_init this' u).
Proof.
  apply constructor_inv in Hnew as (_ & _ & Ht & Hr).
  apply constructor_inv in Hnew' as (_ & _ & Ht' & Hr').
  split.
  - intros E u. unfold trading_init. by rewrite Ht, Ht', E.
  - intros E u. unfold relayer_init. by rewrite Hr, Hr', E.
Qed.
End ConstructionProperties.

Section BaseUrlProperties.
Import Js Errors Runtime Http Client.
Context `{Constants}.

(** X6: a base URL given in the configuration is used as it is, the empty
    string included, since only an absent one is replaced by its default, and
    each of the two independently of the other.  Every request of
    [getMarkets] and [getMarket] then goes to the given REST base, and
    [onOrderbook] connects to the given stream base. *)
Theorem X6_base_urls_are_used_as_given
    (cfg : Types.POLYCAVORAConfig) (w w' : World) (this : POLYCAVORASDK)
    (Hnew : constructor cfg w = (Normal this, w')) :
  (forall meta,
     Types.metaBaseUrl cfg = Some meta ->
     metaBaseUrl this = meta /\
     forall u marketId,
       (exists n, requests (snd (getMarkets this u)) =
                    requests u ++ replicate n (meta +:+ "/markets")) /\
       (exists n, requests (snd (getMarket this marketId u)) =
                    requests u ++ replicate n (meta +:+ "/markets/" +:+ marketId))) /\
  (forall ws,
     Types.wsBaseUrl cfg = Some ws ->
     wsBaseUrl this = ws /\
     forall u marketId opts,
       sockets (snd (onOrderbook this marketId opts u)) =
         sockets u ++ [Stream.connect ws marketId opts]) /\
  (Types.metaBaseUrl cfg = None -> metaBaseUrl this = DEFAULTS_metaBaseUrl) /\
  (Types.wsBaseUrl cfg = None -> wsBaseUrl this = DEFAULTS_wsBaseUrl).
Proof.
  apply constructor_inv in Hnew as (Hm & Hs & _ & _).
  split; [| split; [| split]].
  - intros meta E. rewrite E in Hm. cbn in Hm. split; [done |].
    intros u marketId. unfold getMarkets, getMarket, pmFetchMarkets, pmFetchMarket.
    rewrite Hm. split.
    + destruct (facade_call_requests (meta +:+ "/markets") u) as (n & _ & Hn). eauto.
    + destruct (facade_call_requests (meta +:+ "/markets/" +:+ marketId) u)
        as (n & _ & Hn). eauto.
  - intros ws E. rewrite E in Hs. cbn in Hs. split; [done |].
    intros u marketId opts. unfold onOrderbook. by rewrite Hs.
  - intros E. by rewrite E in Hm.
  - intros E. by rewrite E in Hs.
Qed.
End BaseUrlProperties.

(** ** examples/live-orderbook.ts *)

Section CallbackProperties.
Import Js Errors Runtime Access LiveOrderbook.

Lemma member_value v k : nullish v = false -> member v k = Normal (get v k).
Proof. unfold member. by intros ->. Qed.

Lemma member_nullish v k : nullish v = true -> member v k = Throw (cannot_read v k).
Proof. unfold member. by intros ->. Qed.

Lemma get_nullish v k : nullish v = true -> get v k = VUndefined.
Proof. by destruct v. Qed.

Lemma cannot_read_TypeError v k : instanceof (cannot_read v k) TypeError = true.
Proof. reflexivity. Qed.

(** Indexing throws on [undefined] and [null] only. *)
Lemma first_value v : nullish v = false -> exists x, first v = Normal x.
Proof. destruct v; intros Hv; try done; cbn; eauto. Qed.

Lemma first_nullish v : nullish v = true -> first v = Throw (cannot_read v "0").
Proof. by destruct v. Qed.

(** Optional chaining never throws. *)
Lemma optional_member_value v k :
  optional_member v k = Normal (if nullish v then VUndefined else get v k).
Proof. unfold optional_member, member. by destruct (nullish v). Qed.

(** The price of the first entry of a side that is an array. *)
Lemma first_price side :
  mbind (fun level => optional_member level "price") (first (VArray side))
  = Normal (best_price side).
Proof.
  destruct side as [|level side]; cbn; [done |].
  by rewrite optional_member_value.
Qed.

(** The price of the first entry of a side that is not [undefined] or
    [null]: reading it does not throw. *)
Lemma side_price_value side :
  nullish side = false ->
  exists price,
    mbind (fun level => optional_member level "price") (first side) = Normal price.
Proof.
  intros Hs. destruct (first_value side Hs) as [level ->]. cbn.
  rewrite optional_member_value. eauto.
Qed.

(** X8: the market the example subscribes to is the variable of the
    environment when that is set and not empty, and example-market-id
    otherwise; it is never the empty string. *)
Theorem X8_marketId_falls_back_on_unset_and_on_empty (env : option string) :
  marketId env <> "" /\
  (forall s, env = Some s -> s <> "" -> marketId env = s) /\
  (env = None \/ env = Some "" -> marketId env = "example-market-id").
Proof.
  unfold marketId. split; [| split].
  - destruct env as [s|]; [| done].
    destruct (String.eqb_spec s ""); done.
  - intros s -> Hs. by destruct (String.eqb_spec s "").
  - by intros [-> | ->].
Qed.

(** X9: on a snapshot whose data has arrays for bids and asks, the callback
    prints one line, the label and the price of the first bid and of the
    first ask, and does not throw; an empty side, or a first entry that is
    null, shows as [undefined]. *)
Theorem X9_callback_prints_the_best_prices
    (u : value) (bids asks : list value) (out : list Line)
    (Htype : get u "type" = VString "snapshot")
    (Hbids : get (get u "data") "bids" = VArray bids)
    (Hasks : get (get u "data") "asks" = VArray asks) :
  callback u out =
    (Normal tt,
     out ++ [ConsoleLog [VString "Best bid/ask:"; best_price bids; best_price asks]]).
Proof.
  assert (Hu : nullish u = false).
  { destruct (nullish u) eqn:E; [| done]. by rewrite (get_nullish _ _ E) in Htype. }
  assert (Hd : nullish (get u "data") = false).
  { destruct (nullish (get u "data")) eqn:E; [| done].
    by rewrite (get_nullish _ _ E) in Hbids. }
  unfold callback, callback_args, best_bid_ask.
  rewrite !(member_value u _ Hu), Htype. cbn.
  rewrite !(member_value _ _ Hd), Hbids, Hasks.
  pose proof (first_price bids) as Hb. pose proof (first_price asks) as Ha.
  cbn in *.
  destruct (optional_member (default VUndefined (head bids)) "price")
    as [bid|e]; [| done].
  injection Hb as ->.
  destruct (optional_member (default VUndefined (head asks)) "price")
    as [ask|e]; [| done].
  by injection Ha as ->.
Qed.
(** X10: the callback throws exactly when the update is [undefined] or
    [null], or is a snapshot whose data, bids or asks is [undefined] or
    [null]; what it throws is a [TypeError], and nothing is printed then.  In
    every other case it prints exactly one line and returns. *)
Theorem X10_callback_throws_exactly_on_a_missing_side
    (u : value) (out : list Line) :
  if nullish u || (is_string (get u "type") "snapshot" && negb (has_both_sides u))
  then exists e, callback u out = (Throw e, out) /\ instanceof e TypeError = true
  else exists args, callback u out = (Normal tt, out ++ [ConsoleLog args]).
Proof.
  unfold callback, callback_args.
  destruct (nullish u) eqn:Hu; cbn [orb].
  { rewrite (member_nullish _ _ Hu). cbn. eauto using cannot_read_TypeError. }
  rewrite (member_value _ _ Hu). cbn.
  destruct (is_string (get u "type") "snapshot"); cbn [andb].
  2: { unfold delta. rewrite (member_value _ _ Hu). cbn. eauto. }
  unfold best_bid_ask, has_both_sides.
  rewrite !(member_value u _ Hu). cbn.
  destruct (nullish (get u "data")) eqn:Hd.
  { rewrite (get_nullish _ "bids" Hd), !(member_nullish _ _ Hd). cbn.
    eauto using cannot_read_TypeError. }
  rewrite !(member_value _ _ Hd). cbn.
  destruct (nullish (get (get u "data") "bids")) eqn:Hb; cbn.
  { rewrite (first_nullish _ Hb). cbn. eauto using cannot_read_TypeError. }
  destruct (side_price_value _ Hb) as [bid Hbid].
  destruct (first (get (get u "data") "bids")) as [level|e]; [| done].
  cbn in *. rewrite Hbid. cbn.
  destruct (nullish (get (get u "data") "asks")) eqn:Ha; cbn.
  { rewrite (first_nullish _ Ha). cbn. eauto using cannot_read_TypeError. }
  destruct (side_price_value _ Ha) as [ask Hask].
  destruct (first (get (get u "data") "asks")) as [level'|e]; [| done].
  cbn in *. rewrite Hask. cbn. eauto.
Qed.

(** X11: every update whose type is not the string snapshot is printed as a
    delta, with its data as it is: an update of an unknown type, or with no
    type at all, as well, and [undefined] for data it does not have. *)
Theorem X11_callback_prints_anything_else_as_a_delta
    (u : value) (out : list Line)
    (Hu : nullish u = false)
    (Htype : is_string (get u "type") "snapshot" = false) :
  callback u out =
    (Normal tt, out ++ [ConsoleLog [VString "Delta:"; get u "data"]]).
Proof.
  unfold callback, callback_args, delta.
  rewrite !(member_value _ _ Hu). cbn. by rewrite Htype.
Qed.
End CallbackProperties.

(** ** The further properties at concrete inputs *)

(** A snapshot without asks: the bid is read, reading the asks throws, and
    nothing is printed. *)
Example callback_on_a_lopsided_snapshot :
  LiveOrderbook.callback Sample.lopsided [] =
    (Runtime.Throw (Access.cannot_read Js.VUndefined "0"), []).
Proof. reflexivity. Qed.



Lemma X3_witness :
  Client.relayer_init Sample.custom Example.idle =
    (Runtime.Throw (Errors.new_Error Client.relayer_not_configured), Example.idle) /\
  Js.instanceof (Errors.new_Error Client.relayer_not_configured) Js.POLYNOCTONError
    = false.
Proof.
  split; [reflexivity |].
  apply (X3_configuration_errors_are_plain_errors Sample.custom Example.idle
           Example.idle (Errors.new_Error Client.relayer_not_configured)
           (or_intror eq_refl)).
Defined.

Lemma X4_witness :
  Types.debug Example.configured = None /\
  exists this,
    Client.constructor (H := Example.constants) Example.configured Example.idle
      = (Runtime.Normal this, Example.idle).
Proof.
  split; [reflexivity |].
  destruct (X4_construction_is_lazy (H := Example.constants)
              Example.configured Example.idle)
    as (this & w' & Hnew & _ & _ & _ & _ & _ & Hsame).
  exists this. rewrite <- (Hsame (or_introl eq_refl)) at 2. exact Hnew.
Defined.

Lemma X5_witness :
  Client.constructor (H := Example.constants) Sample.overridden Example.idle
    = (Runtime.Normal Sample.custom,
       snd (Client.constructor (H := Example.constants) Sample.overridden Example.idle)) /\
  Runtime.console
    (snd (Client.constructor (H := Example.constants) Sample.overridden Example.idle))
  = [{| Runtime.tag := "init";
        Runtime.payload :=
          [("metaBaseUrl", Js.VString "");
           ("wsBaseUrl", Js.VString "wss://other.example");
           ("tradingEnabled", Js.VBoolean true);
           ("relayerEnabled", Js.VBoolean false)] |}].
Proof.
  split; [reflexivity |].
  apply (proj1 (X5_init_line_shows_no_credentials (H := Example.constants)
                  Sample.overridden Example.idle)
           Sample.custom _ eq_refl).
Defined.

Lemma X6_witness :
  Client.constructor (H := Example.constants) Sample.overridden Example.idle
    = (Runtime.Normal Sample.custom,
       snd (Client.constructor (H := Example.constants) Sample.overridden Example.idle)) /\
  Client.metaBaseUrl Sample.custom = "" /\
  Runtime.sockets (snd (Client.onOrderbook Sample.custom "market" None Example.idle))
    = [Stream.connect "wss://other.example" "market" None].
Proof.
  split; [reflexivity |].
  pose proof (X6_base_urls_are_used_as_given (H := Example.constants)
                Sample.overridden Example.idle _ Sample.custom eq_refl)
    as (Hmeta & Hws & _).
  split.
  - apply (Hmeta "" eq_refl).
  - apply (proj2 (Hws "wss://other.example" eq_refl) Example.idle "market" None).
Defined.

Lemma X7_witness :
  Types.trading Example.configured = Types.trading Sample.overridden /\
  Client.trading_init Example.full Example.idle =
    Client.trading_init Sample.custom Example.idle.
Proof.
  split; [reflexivity |].
  apply (proj1 (X7_namespaces_read_their_own_configuration (H := Example.constants)
                  Example.configured Sample.overridden Example.idle Example.idle
                  _ _ Example.full Sample.custom eq_refl eq_refl)
           eq_refl).
Defined.

Lemma X8_witness :
  LiveOrderbook.marketId (Some "") = "example-market-id" /\
  LiveOrderbook.marketId (Some "0xabc") = "0xabc".
Proof.
  split.
  - apply (proj2 (proj2 (X8_marketId_falls_back_on_unset_and_on_empty (Some "")))).
    right. reflexivity.
  - apply (proj1 (proj2 (X8_marketId_falls_back_on_unset_and_on_empty (Some "0xabc")))
             "0xabc" eq_refl).
    discriminate.
Defined.

Lemma X9_witness :
  LiveOrderbook.callback Sample.snapshot [] =
    (Runtime.Normal tt,
     [LiveOrderbook.ConsoleLog
        [Js.VString "Best bid/ask:"; Js.VNumber 41; Js.VUndefined]]).
Proof.
  apply (X9_callback_prints_the_best_prices Sample.snapshot
           [Sample.level 41 10] [] [] eq_refl eq_refl eq_refl).
Defined.

Lemma X11_witness :
  LiveOrderbook.callback Sample.heartbeat [] =
    (Runtime.Normal tt,
     [LiveOrderbook.ConsoleLog [Js.VString "Delta:"; Js.VUndefined]]).
Proof.
  apply (X11_callback_prints_anything_else_as_a_delta Sample.heartbeat []
           eq_refl eq_refl).
Defined.
